(** * Telco customer churn pipeline: the silver transformation and the gold
    script runner, embedded from [scripts/transformation.py] and
    [scripts/modeling.py].

    Conventions of the embedding.
    - A pandas [DataFrame] is an ordered list of named columns; a column is a
      list of cells.  A cell is a Python scalar as pandas stores it: a missing
      value, an integer, a float, a string, a boolean or a timestamp.
    - float64 values are represented by exact rationals ([Q]).  The code only
      compares them with zero, selects between them and divides a total by a
      positive tenure; rounding is not represented.  int64 values are
      represented by [Z] (the data set's values are far from the 64-bit
      bounds).
    - Python objects that are mutated in place live in a heap of frames and
      are passed by reference; an exception is a value of type [exn].
    - String functions ([lower], [strip], [title]) act on ASCII letters and
      ASCII white space. *)

From Stdlib Require Import ZArith QArith List String Ascii Bool Lia.
Import ListNotations.

Local Open Scope Z_scope.
Local Open Scope string_scope.
Local Open Scope list_scope.

Set Implicit Arguments.

(* ===================================================================== *)
(** * Python strings *)
(* ===================================================================== *)

Module PyStr.

Definition is_upper (c : ascii) : bool :=
  let n := nat_of_ascii c in (65 <=? n)%nat && (n <=? 90)%nat.

Definition is_lower (c : ascii) : bool :=
  let n := nat_of_ascii c in (97 <=? n)%nat && (n <=? 122)%nat.

Definition is_digit (c : ascii) : bool :=
  let n := nat_of_ascii c in (48 <=? n)%nat && (n <=? 57)%nat.

(** [str.isspace] on the ASCII range: tab, line feed, vertical tab, form
    feed, carriage return, the separators 28-31 and the space. *)
Definition is_space (c : ascii) : bool :=
  let n := nat_of_ascii c in
  ((9 <=? n)%nat && (n <=? 13)%nat) || ((28 <=? n)%nat && (n <=? 32)%nat).

Definition to_lower (c : ascii) : ascii :=
  if is_upper c then ascii_of_nat (nat_of_ascii c + 32) else c.

Definition to_upper (c : ascii) : ascii :=
  if is_lower c then ascii_of_nat (nat_of_ascii c - 32) else c.

(** [s.lower()] *)
Fixpoint lower (s : string) : string :=
  match s with
  | EmptyString => EmptyString
  | String c s' => String (to_lower c) (lower s')
  end.

(** [s.title()]: a cased character is upper-cased when the previous
    character is not cased, and lower-cased otherwise. *)
Fixpoint title_from (previous_is_cased : bool) (s : string) : string :=
  match s with
  | EmptyString => EmptyString
  | String c s' =>
      if is_lower c then
        String (if previous_is_cased then c else to_upper c) (title_from true s')
      else if is_upper c then
        String (if previous_is_cased then to_lower c else c) (title_from true s')
      else String c (title_from false s')
  end.

Definition title (s : string) : string := title_from false s.

(** [s.startswith(p)] *)
Fixpoint startswith (p s : string) : bool :=
  match p, s with
  | EmptyString, _ => true
  | String a p', String b s' => Ascii.eqb a b && startswith p' s'
  | String _ _, EmptyString => false
  end.

(** [needle in s] *)
Fixpoint contains (needle s : string) : bool :=
  startswith needle s ||
  match s with
  | EmptyString => false
  | String _ s' => contains needle s'
  end.

Fixpoint lstrip (s : string) : string :=
  match s with
  | EmptyString => EmptyString
  | String c s' => if is_space c then lstrip s' else s
  end.

(** Removes trailing white space; [rstrip s] is empty when [s] is blank. *)
Fixpoint rstrip (s : string) : string :=
  match s with
  | EmptyString => EmptyString
  | String c s' =>
      match rstrip s' with
      | EmptyString => if is_space c then EmptyString else String c EmptyString
      | r => String c r
      end
  end.

(** [s.strip()] *)
Definition strip (s : string) : string := rstrip (lstrip s).

(** [s.split(sep)] for a one-character separator: always at least one
    piece, empty pieces are kept. *)
Fixpoint split (sep : ascii) (s : string) : list string :=
  match s with
  | EmptyString => [EmptyString]
  | String c s' =>
      if Ascii.eqb c sep then EmptyString :: split sep s'
      else match split sep s' with
           | [] => [String c EmptyString]
           | p :: ps => String c p :: ps
           end
  end.

End PyStr.

(* ===================================================================== *)
(** * Cells, exceptions and numbers *)
(* ===================================================================== *)

Inductive cell : Type :=
| NaN
| Int (z : Z)
| Float (q : Q)
| Str (s : string)
| Bool (b : bool)
| Timestamp (t : Z).

(** The exceptions the scripts can meet.  [DBError] stands for any exception
    raised by the database driver; it carries the text [str(e)]. *)
Inductive exn : Type :=
| KeyError (key : string)
| AttributeError (msg : string)
| ValueError (msg : string)
| TypeError (msg : string)
| ZeroDivisionError
| NameError (msg : string)
| FileNotFoundError (msg : string)
| DBError (msg : string).

(** [str(e)] *)
Definition str_exn (e : exn) : string :=
  match e with
  | KeyError k => "'" ++ k ++ "'"
  | AttributeError m | ValueError m | TypeError m | NameError m
  | FileNotFoundError m | DBError m => m
  | ZeroDivisionError => "division by zero"
  end.

Definition result (A : Type) : Type := (exn + A)%type.

Definition ebind {A B} (m : result A) (k : A -> result B) : result B :=
  match m with
  | inl e => inl e
  | inr a => k a
  end.

Notation "'let!' x ':=' m 'in' k" := (ebind m (fun x => k))
  (at level 10, x name, m at level 100, k at level 200).

(** The numeric value of a cell, as numpy sees it ([True] is 1). *)
Definition number (c : cell) : option Q :=
  match c with
  | Int z => Some (inject_Z z)
  | Float q => Some q
  | Bool b => Some (if b then 1%Q else 0%Q)
  | NaN | Str _ | Timestamp _ => None
  end.

Definition Qltb (x y : Q) : bool := negb (Qle_bool y x).

(** Truncation towards zero, as [astype(int)] does on a float. *)
Definition Qtrunc (q : Q) : Z := Z.quot (Qnum q) (Zpos (Qden q)).

(** [c < 0] and [c > 0] on a numeric cell; a comparison with NaN is False. *)
Definition lt_zero (c : cell) : bool :=
  match number c with
  | Some q => Qltb q 0
  | None => false
  end.

Definition gt_zero (c : cell) : bool :=
  match number c with
  | Some q => Qltb 0 q
  | None => false
  end.

(** ** Parsing a decimal literal, for [pd.to_numeric] on strings.

    Accepted: optional surrounding white space, an optional sign, digits
    with an optional fractional part ([12], [12.], [.5], [-3], [29.85]).
    Everything else does not parse.  pandas reads more: exponent notation
    and the literals inf and nan are outside this reading, as is a float
    that is not finite.  On short texts made of digits, a point, a sign and
    spaces the two readings agree; the frames on which the theorems about
    the values returned are stated are restricted to such texts
    ([plain_numbers], below). *)

Definition digit_val (c : ascii) : Z := Z.of_nat (nat_of_ascii c) - 48.

(** Reads digits; returns the number read, how many digits, and the rest. *)
Fixpoint read_digits (acc : Z) (n : nat) (s : string) : Z * nat * string :=
  match s with
  | String c s' =>
      if PyStr.is_digit c then read_digits (10 * acc + digit_val c) (S n) s'
      else (acc, n, s)
  | EmptyString => (acc, n, s)
  end.

Definition parse_unsigned (s : string) : option cell :=
  let '(ip, ni, rest) := read_digits 0 O s in
  match rest with
  | EmptyString => if (0 <? ni)%nat then Some (Int ip) else None
  | String "." frac =>
      let '(fp, nf, rest') := read_digits 0 O frac in
      match rest' with
      | EmptyString =>
          if (0 <? ni + nf)%nat
          then Some (Float (Qmake (ip * 10 ^ Z.of_nat nf + fp)
                                  (Z.to_pos (10 ^ Z.of_nat nf))))
          else None
      | _ => None
      end
  | _ => None
  end.

Definition negate (c : cell) : cell :=
  match c with
  | Int z => Int (- z)
  | Float q => Float (Qopp q)
  | _ => c
  end.

Definition parse_number (s : string) : option cell :=
  match PyStr.strip s with
  | String "-" s' => option_map negate (parse_unsigned s')
  | String "+" s' => parse_unsigned s'
  | s' => parse_unsigned s'
  end.


(* ===================================================================== *)
(** * pandas: columns *)
(* ===================================================================== *)

Definition column : Type := list cell.

Definition is_str (c : cell) : bool :=
  match c with Str _ => true | _ => false end.

Definition is_nan (c : cell) : bool :=
  match c with NaN => true | _ => false end.

(** Python's [==] as a dict lookup uses it: numbers compare by value
    ([1 == 1.0 == True]), strings by content, and NaN equals nothing. *)
Definition py_eqb (a b : cell) : bool :=
  match a, b with
  | Str s, Str t => String.eqb s t
  | Timestamp s, Timestamp t => Z.eqb s t
  | _, _ =>
      match number a, number b with
      | Some x, Some y => Qeq_bool x y
      | _, _ => false
      end
  end.

(** [s.replace(old, new)] for string arguments. *)
Definition replace (old new : string) (s : column) : column :=
  map (fun c => if py_eqb c (Str old) then Str new else c) s.

(** [pd.to_numeric(s, errors='coerce')]: numbers stay, a string is parsed,
    and what does not parse becomes NaN. *)
Definition to_numeric_cell (c : cell) : cell :=
  match c with
  | Int _ | Float _ | Bool _ => c
  | Str s => match parse_number s with Some n => n | None => NaN end
  | NaN | Timestamp _ => NaN
  end.

Definition to_numeric (s : column) : column := map to_numeric_cell s.

(** [s.fillna(v)] *)
Definition fillna (v : cell) (s : column) : column :=
  map (fun c => if is_nan c then v else c) s.

(** [s.astype(int)]: floats are truncated; a missing value cannot be
    converted (after [to_numeric] no string is left in the column).  The
    result is an unbounded integer: the wrap of numpy beyond the 64-bit
    range is not represented, and [plain_numbers] keeps the values within
    the range where the two agree. *)
Definition astype_int_cell (c : cell) : result cell :=
  match c with
  | Int z => inr (Int z)
  | Float q => inr (Int (Qtrunc q))
  | Bool b => inr (Int (if b then 1 else 0))
  | NaN => inl (ValueError "Cannot convert non-finite values (NA or inf) to integer")
  | Str _ => inl (ValueError "invalid literal for int()")
  | Timestamp _ => inl (TypeError "cannot astype a datetimelike to int")
  end.

Fixpoint astype_int (s : column) : result column :=
  match s with
  | [] => inr []
  | c :: s' =>
      let! z := astype_int_cell c in
      let! r := astype_int s' in
      inr (z :: r)
  end.

(** [s.map(d)] for a dict [d]: a value that is no key of [d] becomes NaN. *)
Fixpoint dict_get (d : list (cell * cell)) (k : cell) : cell :=
  match d with
  | [] => NaN
  | (k', v) :: d' => if py_eqb k k' then v else dict_get d' k
  end.

Definition map_dict (d : list (cell * cell)) (s : column) : column :=
  map (dict_get d) s.

(** The [.str] accessor exists on columns of dtype object only.  A column
    read from a CSV file has dtype object when it holds a string, or when
    the file has no row at all. *)
Definition is_object (s : column) : bool :=
  match s with
  | [] => true
  | _ => existsb is_str s
  end.

(** [s.str.title()] *)
Definition str_title (s : column) : result column :=
  if is_object s
  then inr (map (fun c => match c with Str x => Str (PyStr.title x) | _ => NaN end) s)
  else inl (AttributeError "Can only use .str accessor with string values!").

(** [a / b], element by element.  Division by zero gives an infinity or a
    nan in numpy, no exception; the model writes NaN for both. *)
Definition divide_cell (a b : cell) : cell :=
  match number a, number b with
  | Some x, Some y => if Qeq_bool y 0 then NaN else Float (x / y)
  | _, _ => NaN
  end.

Fixpoint zip_with {A B C} (f : A -> B -> C) (l : list A) (m : list B) : list C :=
  match l, m with
  | a :: l', b :: m' => f a b :: zip_with f l' m'
  | _, _ => []
  end.

Definition divide (a b : column) : column := zip_with divide_cell a b.

(** A float64 array element. *)
Definition as_float (c : cell) : cell :=
  match number c with
  | Some q => Float q
  | None => NaN
  end.

(** [np.where(cond, a, b)] on float arrays. *)
Fixpoint np_where (cond : list bool) (a b : column) : column :=
  match cond, a, b with
  | c :: cond', x :: a', y :: b' =>
      as_float (if c then x else y) :: np_where cond' a' b'
  | _, _, _ => []
  end.

(** [pd.cut(s, bins, labels, include_lowest)] with the default
    [right=True]: the value falls in the first bin [(lo, hi]] that holds
    it, the lowest edge being included when [include_lowest] is set; a
    value in no bin is missing. *)
Fixpoint cut_value (include_lowest : bool) (bins : list Q) (labels : list string)
         (x : Q) : cell :=
  match bins, labels with
  | lo :: ((hi :: _) as bins'), l :: labels' =>
      if (Qltb lo x || (include_lowest && Qeq_bool x lo)) && Qle_bool x hi
      then Str l
      else cut_value false bins' labels' x
  | _, _ => NaN
  end.

Definition pd_cut (s : column) (bins : list Q) (labels : list string)
           (include_lowest : bool) : column :=
  map (fun c => match number c with
                | Some x => cut_value include_lowest bins labels x
                | None => NaN
                end) s.

(** [s.astype(str)] on the categorical that [pd.cut] returns: a missing
    category becomes the string [nan]. *)
Definition astype_str (s : column) : column :=
  map (fun c => match c with Str x => Str x | _ => Str "nan" end) s.

(** The key under which [duplicated] groups a value: equal numbers have one
    key, and all missing values share one. *)
Definition cell_key (c : cell) : cell :=
  match c with
  | Int z => Float (inject_Z z)
  | Float q => Float (Qred q)
  | Bool b => Float (if b then 1%Q else 0%Q)
  | NaN | Str _ | Timestamp _ => c
  end.

Definition Q_eqb (x y : Q) : bool :=
  Z.eqb (Qnum x) (Qnum y) && Pos.eqb (Qden x) (Qden y).

(** Structural equality of cells. *)
Definition cell_eqb (a b : cell) : bool :=
  match a, b with
  | NaN, NaN => true
  | Int x, Int y => Z.eqb x y
  | Float x, Float y => Q_eqb x y
  | Str x, Str y => String.eqb x y
  | Bool x, Bool y => Bool.eqb x y
  | Timestamp x, Timestamp y => Z.eqb x y
  | _, _ => false
  end.

Definition same_key (a b : cell) : bool := cell_eqb (cell_key a) (cell_key b).

(** [s.duplicated()] (keep='first'): True at every occurrence of a value
    but its first. *)
Fixpoint duplicated_from (seen : list cell) (s : column) : list bool :=
  match s with
  | [] => []
  | c :: s' =>
      existsb (same_key c) seen :: duplicated_from (seen ++ [c]) s'
  end.

Definition duplicated (s : column) : list bool := duplicated_from [] s.

(** [mask.sum()] *)
Definition sum_bool (m : list bool) : Z := Z.of_nat (count_occ bool_dec m true).

(** [s[mask]] *)
Fixpoint select {A} (mask : list bool) (s : list A) : list A :=
  match mask, s with
  | b :: mask', c :: s' => if b then c :: select mask' s' else select mask' s'
  | _, _ => []
  end.

(** [s[mask] = v] *)
Fixpoint set_where (mask : list bool) (v : cell) (s : column) : column :=
  match mask, s with
  | b :: mask', c :: s' => (if b then v else c) :: set_where mask' v s'
  | _, _ => s
  end.

(* ===================================================================== *)
(** * pandas: frames *)
(* ===================================================================== *)

Definition DataFrame : Type := list (string * column).

Fixpoint getcol (name : string) (df : DataFrame) : option column :=
  match df with
  | [] => None
  | (n, c) :: df' => if String.eqb n name then Some c else getcol name df'
  end.

(** [df[name]] *)
Definition getitem (df : DataFrame) (name : string) : result column :=
  match getcol name df with
  | Some c => inr c
  | None => inl (KeyError name)
  end.

(** [df[name] = col]: an existing column is replaced where it stands, a new
    one is added last. *)
Fixpoint setitem (df : DataFrame) (name : string) (col : column) : DataFrame :=
  match df with
  | [] => [(name, col)]
  | (n, c) :: df' =>
      if String.eqb n name then (n, col) :: df'
      else (n, c) :: setitem df' name col
  end.

(** The column [name], empty when there is none. *)
Definition col_of (name : string) (d : DataFrame) : column :=
  match getcol name d with
  | Some c => c
  | None => []
  end.

(** [len(df)] *)
Definition len (df : DataFrame) : Z :=
  match df with
  | [] => 0
  | (_, c) :: _ => Z.of_nat (List.length c)
  end.

Fixpoint rename_name (mapping : list (string * string)) (n : string) : string :=
  match mapping with
  | [] => n
  | (old, new) :: m' => if String.eqb old n then new else rename_name m' n
  end.

(** [df.rename(columns=mapping)]: a column whose name is a key of the
    mapping takes the mapped name, any other column keeps its name, and a
    key that names no column is ignored. *)
Definition rename (mapping : list (string * string)) (df : DataFrame) : DataFrame :=
  map (fun '(n, c) => (rename_name mapping n, c)) df.

(** [df.drop(name, axis=1)] *)
Definition drop (name : string) (df : DataFrame) : result DataFrame :=
  match getcol name df with
  | None => inl (KeyError name)
  | Some _ => inr (filter (fun '(n, _) => negb (String.eqb n name)) df)
  end.

(** [df[mask]]: the rows where the mask is True. *)
Definition select_rows (mask : list bool) (df : DataFrame) : DataFrame :=
  map (fun '(n, c) => (n, select mask c)) df.

(** [df.drop_duplicates(subset=[name], keep='first')] *)
Definition drop_duplicates (name : string) (df : DataFrame) : result DataFrame :=
  let! ids := getitem df name in
  inr (select_rows (map negb (duplicated ids)) df).

(** [df[names]]: the listed columns, in the listed order. *)
Fixpoint select_columns (names : list string) (df : DataFrame) : result DataFrame :=
  match names with
  | [] => inr []
  | n :: names' =>
      let! c := getitem df n in
      let! rest := select_columns names' df in
      inr ((n, c) :: rest)
  end.

(** [df.isnull().sum().sum()] *)
Definition count_null (df : DataFrame) : Z :=
  fold_right (fun '(_, c) acc => sum_bool (map is_nan c) + acc) 0 df.

(* ===================================================================== *)
(** * Frames as Python objects: a heap and references *)
(* ===================================================================== *)

Definition ref : Type := nat.
Definition heap : Type := list DataFrame.

(** A computation reads and writes the heap and returns or raises. *)
Definition M (A : Type) : Type := heap -> result A * heap.

Definition ret {A} (a : A) : M A := fun h => (inr a, h).

Definition raise {A} (e : exn) : M A := fun h => (inl e, h).

Definition bind {A B} (m : M A) (k : A -> M B) : M B :=
  fun h =>
    match m h with
    | (inl e, h') => (inl e, h')
    | (inr a, h') => k a h'
    end.

Notation "x <- m ;; k" := (bind m (fun x => k))
  (at level 61, m at next level, right associativity).
Notation "m ;;; k" := (bind m (fun _ => k))
  (at level 61, right associativity).

Fixpoint update {A} (n : nat) (x : A) (l : list A) : list A :=
  match l, n with
  | [], _ => []
  | _ :: l', O => x :: l'
  | y :: l', S n' => y :: update n' x l'
  end.

Definition deref (r : ref) : M DataFrame :=
  fun h =>
    match nth_error h r with
    | Some df => (inr df, h)
    | None => (inl (NameError "dangling reference"), h)
    end.

(** A new object. *)
Definition alloc (df : DataFrame) : M ref :=
  fun h => (inr (List.length h), h ++ [df]).

(** [df.copy()] *)
Definition copy (r : ref) : M ref := df <- deref r ;; alloc df.

(** A statement that changes a frame in place; when it raises, the frame is
    as it was. *)
Definition stmt : Type := DataFrame -> result DataFrame.

Definition inplace (r : ref) (s : stmt) : M unit :=
  df <- deref r ;;
  match s df with
  | inl e => raise e
  | inr df' => fun h => (inr tt, update r df' h)
  end.

(** An expression that reads a frame. *)
Definition eval {A} (r : ref) (e : DataFrame -> result A) : M A :=
  df <- deref r ;;
  match e df with
  | inl x => raise x
  | inr a => ret a
  end.

(** A straight-line block of statements on one object. *)
Fixpoint exec_block (r : ref) (b : list stmt) : M unit :=
  match b with
  | [] => ret tt
  | s :: b' => inplace r s ;;; exec_block r b'
  end.

(** [df[name] = rhs] *)
Definition assign (name : string) (rhs : DataFrame -> result column) : stmt :=
  fun df => let! c := rhs df in inr (setitem df name c).

(** [df[name] = f(df[source])] *)
Definition derive (name source : string) (f : column -> result column) : stmt :=
  assign name (fun df => let! c := getitem df source in f c).

Definition pure {A B} (f : A -> B) : A -> result B := fun a => inr (f a).

(** [for x in l: body(x)], for a body that is one statement. *)
Fixpoint for_each {A} (l : list A) (body : A -> stmt) : list stmt :=
  match l with
  | [] => []
  | x :: l' => body x :: for_each l' body
  end.

(* ===================================================================== *)
(** * transformation.py: [clean_and_transform] *)
(* ===================================================================== *)

Module Transformation.

Definition column_mapping : list (string * string) :=
  [ ("customerID", "customer_id");
    ("gender", "gender");
    ("SeniorCitizen", "senior_citizen");
    ("Partner", "partner");
    ("Dependents", "dependents");
    ("tenure", "tenure");
    ("PhoneService", "phone_service");
    ("MultipleLines", "multiple_lines");
    ("InternetService", "internet_service");
    ("OnlineSecurity", "online_security");
    ("OnlineBackup", "online_backup");
    ("DeviceProtection", "device_protection");
    ("TechSupport", "tech_support");
    ("StreamingTV", "streaming_tv");
    ("StreamingMovies", "streaming_movies");
    ("Contract", "contract_type");
    ("PaperlessBilling", "paperless_billing");
    ("PaymentMethod", "payment_method");
    ("MonthlyCharges", "monthly_charges");
    ("TotalCharges", "total_charges");
    ("Churn", "churn") ].

Definition boolean_mapping : list (cell * cell) :=
  [ (Str "Yes", Bool true);
    (Str "No", Bool false);
    (Str "No phone service", Bool false);
    (Str "No internet service", Bool false) ].

Definition service_columns : list string :=
  [ "online_security"; "online_backup"; "device_protection";
    "tech_support"; "streaming_tv"; "streaming_movies" ].

(** What the function logs in its summary and warnings. *)
Record Report : Type := mkReport {
  initial_rows : Z;
  final_rows : Z;
  rows_removed : Z;
  null_values : Z;
  duplicates : Z;
  invalid_tenure : Z;
  invalid_charges : Z;
  duplicate_customer_ids : Z
}.

(** Step 1, column renaming. *)
Definition step1_rename : list stmt :=
  [ pure (rename column_mapping) ].

(** Step 2, missing values. *)
Definition step2_missing : list stmt :=
  [ derive "total_charges" "total_charges" (pure (replace " " "0"));
    derive "total_charges" "total_charges"
      (fun c => inr (fillna (Int 0) (to_numeric c))) ].

(** Step 3, data type conversion. *)
Definition step3_types : list stmt :=
  [ derive "tenure" "tenure" (fun c => astype_int (fillna (Int 0) (to_numeric c)));
    derive "monthly_charges" "monthly_charges"
      (fun c => inr (fillna (Int 0) (to_numeric c)));
    derive "total_charges" "total_charges"
      (fun c => inr (fillna (Int 0) (to_numeric c)));
    derive "senior_citizen" "senior_citizen"
      (pure (map_dict [(Int 1, Bool true); (Int 0, Bool false)]));
    derive "partner" "partner" (pure (map_dict boolean_mapping));
    derive "dependents" "dependents" (pure (map_dict boolean_mapping));
    derive "phone_service" "phone_service" (pure (map_dict boolean_mapping));
    derive "paperless_billing" "paperless_billing" (pure (map_dict boolean_mapping));
    derive "churned" "churn"
      (pure (map_dict [(Str "Yes", Bool true); (Str "No", Bool false)]));
    drop "churn" ].

(** Step 4, categorical values. *)
Definition step4_categorical : list stmt :=
  [ derive "gender" "gender" str_title ]
  ++ for_each service_columns
       (fun col => derive col col (pure (replace "No internet service" "No")))
  ++ [ derive "multiple_lines" "multiple_lines" (pure (replace "No phone service" "No")) ].

(** Step 5, derived fields. *)
Definition step5_derived : list stmt :=
  [ assign "avg_monthly_revenue" (fun df =>
      let! tenure := getitem df "tenure" in
      let! total_charges := getitem df "total_charges" in
      let! tenure' := getitem df "tenure" in
      let! monthly_charges := getitem df "monthly_charges" in
      inr (np_where (map gt_zero tenure)
                    (divide total_charges tenure')
                    monthly_charges));
    assign "customer_segment" (fun df =>
      let! tenure := getitem df "tenure" in
      inr (pd_cut tenure [0; 12; 36; 100]%Q ["New"; "Growing"; "Loyal"] true));
    derive "customer_segment" "customer_segment" (pure astype_str) ].

(** [df.loc[df[name] < 0, name] = 0] *)
Definition clamp_negative (name : string) : stmt :=
  fun df =>
    let! c := getitem df name in
    inr (setitem df name (set_where (map lt_zero c) (Int 0) c)).

Definition count_negative (name : string) (df : DataFrame) : result Z :=
  let! c := getitem df name in inr (sum_bool (map lt_zero c)).

Definition count_duplicated (name : string) (df : DataFrame) : result Z :=
  let! c := getitem df name in inr (sum_bool (duplicated c)).

Definition cleaning_steps : list stmt :=
  step1_rename ++ step2_missing ++ step3_types
  ++ step4_categorical ++ step5_derived.

Definition clean_and_transform (df : ref) : M (ref * Report) :=
  (* a copy, so that the caller's frame is not modified *)
  df_clean <- copy df ;;
  initial_rows <- eval df_clean (pure len) ;;
  (* Steps 1 to 5, in place on the copy *)
  exec_block df_clean cleaning_steps ;;;
  (* Step 6, data quality: duplicates *)
  duplicates <- eval df_clean (count_duplicated "customer_id") ;;
  df_clean <- (if (0 <? duplicates)%Z
               then d <- eval df_clean (drop_duplicates "customer_id") ;; alloc d
               else ret df_clean) ;;
  (* invalid values *)
  invalid_tenure <- eval df_clean (count_negative "tenure") ;;
  invalid_charges <- eval df_clean (count_negative "monthly_charges") ;;
  (if (0 <? invalid_tenure)%Z
   then inplace df_clean (clamp_negative "tenure") else ret tt) ;;;
  (if (0 <? invalid_charges)%Z
   then inplace df_clean (clamp_negative "monthly_charges") else ret tt) ;;;
  (* Step 7, summary *)
  final_rows <- eval df_clean (pure len) ;;
  null_values <- eval df_clean (pure count_null) ;;
  remaining <- eval df_clean (count_duplicated "customer_id") ;;
  ret (df_clean,
       {| initial_rows := initial_rows;
          final_rows := final_rows;
          rows_removed := initial_rows - final_rows;
          null_values := null_values;
          duplicates := duplicates;
          invalid_tenure := invalid_tenure;
          invalid_charges := invalid_charges;
          duplicate_customer_ids := remaining |}).

(** ** The staging store

    The relational store is external; the model keeps its tables by
    qualified name.  A table is a frame whose missing cells are NULL. *)

Definition database : Type := list (string * DataFrame).

Fixpoint get_table (name : string) (db : database) : option DataFrame :=
  match db with
  | [] => None
  | (n, t) :: db' => if String.eqb n name then Some t else get_table name db'
  end.

Fixpoint put_table (name : string) (t : DataFrame) (db : database) : database :=
  match db with
  | [] => [(name, t)]
  | (n, t') :: db' =>
      if String.eqb n name then (n, t) :: db'
      else (n, t') :: put_table name t db'
  end.

Inductive if_exists_mode : Type := IfFail | IfReplace | IfAppend.

(** The rows of [extra] under the rows of [t], column by column. *)
Definition append_rows (t extra : DataFrame) : DataFrame :=
  map (fun '(n, c) => (n, c ++ col_of n extra)) t.

(** [df.to_sql(name, schema=schema, if_exists=mode, index=False)] *)
Definition to_sql (df : DataFrame) (name schema : string) (mode : if_exists_mode)
           (db : database) : result database :=
  let qualified := (schema ++ "." ++ name)%string in
  match get_table qualified db, mode with
  | None, _ => inr (put_table qualified df db)
  | Some _, IfFail => inl (ValueError ("Table '" ++ name ++ "' already exists.")%string)
  | Some _, IfReplace => inr (put_table qualified df db)
  | Some old, IfAppend => inr (put_table qualified (append_rows old df) db)
  end.

(** [create_silver_table]: runs the script [silver_staging.sql], which is
    not part of the sources, in one transaction; the script is a parameter. *)
Definition create_silver_table (silver_staging_sql : database -> result database)
           (db : database) : result database :=
  silver_staging_sql db.

Definition column_order : list string :=
  [ "customer_id"; "gender"; "senior_citizen"; "partner"; "dependents";
    "tenure"; "phone_service"; "multiple_lines"; "internet_service";
    "online_security"; "online_backup"; "device_protection"; "tech_support";
    "streaming_tv"; "streaming_movies"; "contract_type"; "paperless_billing";
    "payment_method"; "monthly_charges"; "total_charges"; "avg_monthly_revenue";
    "customer_segment"; "churned"; "ingestion_timestamp" ].

(** [df[name] = value] for a scalar: the value on every row. *)
Definition broadcast (name : string) (value : cell) : stmt :=
  fun df => inr (setitem df name (repeat value (Z.to_nat (len df)))).

(** [load_to_silver]; [now] is the reading of the clock. *)
Definition load_to_silver (df : ref) (now : Z) (db : database) : M database :=
  inplace df (broadcast "ingestion_timestamp" (Timestamp now)) ;;;
  df <- (d <- eval df (select_columns column_order) ;; alloc d) ;;
  d <- deref df ;;
  match to_sql d "customers_staging" "silver" IfReplace db with
  | inl e => raise e
  | inr db' => ret db'
  end.

Record ValidationResults : Type := mkValidation {
  total_records : Z;
  unique_customers : Z;
  churned_count : Z;
  null_check : Z;
  segment_distribution : list (cell * Z)
}.

(** [SELECT COUNT(DISTINCT c)]: NULL is not counted. *)
Definition count_distinct (c : column) : Z :=
  let present := filter (fun x => negb (is_nan x)) c in
  sum_bool (map negb (duplicated present)).

(** [SELECT COUNT( * ) ... WHERE c = TRUE] *)
Definition count_true (c : column) : Z :=
  sum_bool (map (fun x => match x with Bool true => true | _ => false end) c).

(** The order of [ORDER BY] on a text column: strings by their bytes, NULL
    last. *)
Definition sql_leb (a b : cell) : bool :=
  match a, b with
  | Str x, Str y => String.leb x y
  | Str _, _ => true
  | _, Str _ => false
  | _, _ => true
  end.

Fixpoint insert_group (g : cell * Z) (l : list (cell * Z)) : list (cell * Z) :=
  match l with
  | [] => [g]
  | g' :: l' => if sql_leb (fst g) (fst g') then g :: l else g' :: insert_group g l'
  end.

Fixpoint count_group (k : cell) (groups : list (cell * Z)) : list (cell * Z) :=
  match groups with
  | [] => [(k, 1)]
  | (k', n) :: groups' =>
      if cell_eqb k k' then (k', n + 1) :: groups'
      else (k', n) :: count_group k groups'
  end.

(** [SELECT c, COUNT( * ) ... GROUP BY c ORDER BY c] *)
Definition group_count (c : column) : list (cell * Z) :=
  fold_right insert_group [] (fold_left (fun acc k => count_group k acc) c []).

Definition query (db : database) (column_name : string) : result column :=
  match get_table "silver.customers_staging" db with
  | None => inl (DBError "relation silver.customers_staging does not exist")
  | Some t =>
      match getcol column_name t with
      | None => inl (DBError ("column " ++ column_name ++ " does not exist")%string)
      | Some c => inr c
      end
  end.

(** [validate_silver_data]: the five queries, then the log lines; the churn
    rate printed there divides by the number of records. *)
Definition validate_silver_data (db : database) : result ValidationResults :=
  let! t := match get_table "silver.customers_staging" db with
            | Some t => inr t
            | None => inl (DBError "relation silver.customers_staging does not exist")
            end in
  let total_records := len t in
  let! ids := query db "customer_id" in
  let unique_customers := count_distinct ids in
  let! churned := query db "churned" in
  let churned_count := count_true churned in
  let! ids' := query db "customer_id" in
  let null_check := sum_bool (map is_nan ids') in
  let! segments := query db "customer_segment" in
  let segment_distribution := group_count segments in
  if (total_records =? 0)%Z then inl ZeroDivisionError
  else inr {| total_records := total_records;
              unique_customers := unique_customers;
              churned_count := churned_count;
              null_check := null_check;
              segment_distribution := segment_distribution |}.

(** [main]: the bronze file as read by [pd.read_csv] ([None] when the file
    is missing), the staging script, the clock and the store. *)
Definition main (bronze : option DataFrame)
           (silver_staging_sql : database -> result database)
           (now : Z) (db : database) : result ValidationResults * database :=
  match bronze with
  | None => (inl (FileNotFoundError "Bronze data file not found"), db)
  | Some df_raw =>
      match clean_and_transform 0%nat [df_raw] with
      | (inl e, _) => (inl e, db)
      | (inr (df_clean, _), h) =>
          match create_silver_table silver_staging_sql db with
          | inl e => (inl e, db)
          | inr db1 =>
              match load_to_silver df_clean now db1 h with
              | (inl e, _) => (inl e, db1)
              | (inr db2, _) => (validate_silver_data db2, db2)
              end
          end
      end
  end.

End Transformation.

Import Transformation.

(* ===================================================================== *)
(** * modeling.py: [build_gold_models] *)
(* ===================================================================== *)

Module Modeling.

(** [[s.strip() for s in sql_script.split(';') if s.strip()]] *)
Definition statements_of (sql_script : string) : list string :=
  map PyStr.strip
      (filter (fun s => negb (String.eqb (PyStr.strip s) ""))
              (PyStr.split ";" sql_script)).

(** The test of the [except] branch: the error is expected when its text, in
    lower case, says that something does not exist or already exists. *)
Definition expected_error (e : exn) : bool :=
  negb (negb (PyStr.contains "does not exist" (PyStr.lower (str_exn e)))
        && negb (PyStr.contains "already exists" (PyStr.lower (str_exn e)))).

(** The loop over the statements.  [execute] runs one statement in its own
    transaction: it returns the new store, or raises and leaves the store
    as it was. *)
Fixpoint run_statements (execute : string -> database -> result database)
         (statements : list string) (db : database) : result unit * database :=
  match statements with
  | [] => (inr tt, db)
  | statement :: rest =>
      if String.eqb statement "" || PyStr.startswith "--" statement
      then run_statements execute rest db
      else
        match execute statement db with
        | inr db' => run_statements execute rest db'
        | inl e =>
            if expected_error e
            then run_statements execute rest db
            else (inl e, db)
        end
  end.

Definition build_gold_models (execute : string -> database -> result database)
           (sql_script : string) (db : database) : result unit * database :=
  run_statements execute (statements_of sql_script) db.

(** ** [generate_insights]

    The function reads the dictionaries that [validate_gold_models] built
    from query results and logs what it computes.  A value of such a
    dictionary is a Python int, a float (nan included), a string or [None].
    The model returns what the function logs in its last two sections; the
    function itself returns nothing. *)

Inductive value : Type :=
| VInt (z : Z)
| VFloat (q : Q)
| VNan
| VStr (s : string)
| VNone.

(** A dictionary with string keys, as [to_dict] builds it. *)
Definition row : Type := list (string * value).

(** [d[key]] *)
Fixpoint item (d : row) (key : string) : result value :=
  match d with
  | [] => inl (KeyError key)
  | (k, v) :: d' => if String.eqb k key then inr v else item d' key
  end.

(** The finite number in a value. *)
Definition finite (v : value) : option Q :=
  match v with
  | VInt z => Some (inject_Z z)
  | VFloat q => Some q
  | VNan | VStr _ | VNone => None
  end.

(** Formatting with a numeric format ([:,], [:.2f], [:,.2f], [:.1f]): a
    number is accepted, a string and [None] are refused. *)
Definition format_number (spec : string) (v : value) : result unit :=
  match v with
  | VInt _ | VFloat _ | VNan => inr tt
  | VStr _ =>
      if String.eqb spec ","
      then inl (ValueError "Cannot specify ',' with 's'.")
      else inl (ValueError "Unknown format code 'f' for object of type 'str'")
  | VNone => inl (TypeError "unsupported format string passed to NoneType.__format__")
  end.

(** [a / b] *)
Definition true_divide (a b : value) : result value :=
  match a, b with
  | (VStr _ | VNone), _ | _, (VStr _ | VNone) =>
      inl (TypeError "unsupported operand type(s) for /")
  | _, VNan => inr VNan
  | _, _ =>
      match finite b with
      | Some y =>
          if Qeq_bool y 0 then inl ZeroDivisionError
          else match finite a with
               | Some x => inr (VFloat (x / y))
               | None => inr VNan
               end
      | None => inr VNan
      end
  end.

Fixpoint repeat_string (s : string) (n : nat) : string :=
  match n with
  | O => ""
  | S n' => (s ++ repeat_string s n')%string
  end.

(** [a * k] for an int [k]; a string is repeated. *)
Definition times (a : value) (k : Z) : result value :=
  match a with
  | VInt z => inr (VInt (z * k))
  | VFloat q => inr (VFloat (q * inject_Z k))
  | VNan => inr VNan
  | VStr s => inr (VStr (repeat_string s (Z.to_nat k)))
  | VNone => inl (TypeError "unsupported operand type(s) for *")
  end.

(** [a > b]: numbers by value, strings by their characters; a comparison
    with nan is False, and any other pair cannot be ordered. *)
Definition greater (a b : value) : result bool :=
  match a, b with
  | VStr s, VStr t => inr (String.ltb t s)
  | (VStr _ | VNone), _ | _, (VStr _ | VNone) =>
      inl (TypeError "'>' not supported between these instances")
  | _, _ =>
      match finite a, finite b with
      | Some x, Some y => inr (Qltb y x)
      | _, _ => inr false
      end
  end.

(** [max(rows, key=lambda x: x[name])]: the first row whose key no later
    key exceeds. *)
Fixpoint max_from (name : string) (best : row) (best_key : value)
         (rows : list row) : result row :=
  match rows with
  | [] => inr best
  | r :: rest =>
      let! k := item r name in
      let! g := greater k best_key in
      if g then max_from name r k rest else max_from name best best_key rest
  end.

Definition max_by (name : string) (rows : list row) : result row :=
  match rows with
  | [] => inl (ValueError "max() arg is an empty sequence")
  | r :: rest =>
      let! k := item r name in
      max_from name r k rest
  end.

(** The entries of [results] that the function reads. *)
Record Results : Type := mkResults {
  executive_summary : row;
  churn_summary : list row;
  revenue_analysis_top10 : list row
}.

(** What sections 3 and 4 log. *)
Record Insights : Type := mkInsights {
  at_risk_pct : value;
  annual_impact : value;
  highest_churn_segment : row;
  top_revenue : option row
}.

(** The four log lines of one segment. *)
Definition log_segment (segment : row) : result unit :=
  let! _ := item segment "customer_segment" in
  let! n := item segment "total_customers" in
  let! _ := format_number "," n in
  let! c := item segment "churn_rate_percent" in
  let! _ := format_number ".2f" c in
  let! t := item segment "avg_tenure_months" in
  let! _ := format_number ".1f" t in
  let! m := item segment "avg_monthly_charges" in
  format_number ".2f" m.

Fixpoint log_segments (segments : list row) : result unit :=
  match segments with
  | [] => inr tt
  | segment :: rest =>
      let! _ := log_segment segment in
      log_segments rest
  end.

Definition generate_insights (results : Results) : result Insights :=
  let exec_summary := executive_summary results in
  let churn_summary := churn_summary results in
  (* 1. overall health *)
  let! total_customers := item exec_summary "total_customers" in
  let! _ := format_number "," total_customers in
  let! churn_rate := item exec_summary "overall_churn_rate" in
  let! _ := format_number ".2f" churn_rate in
  let! revenue := item exec_summary "total_monthly_revenue" in
  let! _ := format_number ",.2f" revenue in
  let! at_risk := item exec_summary "at_risk_revenue" in
  let! _ := format_number ",.2f" at_risk in
  (* 2. segment performance *)
  let! _ := log_segments churn_summary in
  (* 3. revenue at risk *)
  let! at_risk' := item exec_summary "at_risk_revenue" in
  let! revenue' := item exec_summary "total_monthly_revenue" in
  let! ratio := true_divide at_risk' revenue' in
  let! at_risk_pct := times ratio 100 in
  let! _ := format_number ".1f" at_risk_pct in
  let! at_risk'' := item exec_summary "at_risk_revenue" in
  let! annual := times at_risk'' 12 in
  let! _ := format_number ",.2f" annual in
  (* 4. recommended actions *)
  let! highest_churn_segment := max_by "churn_rate_percent" churn_summary in
  let! _ := item highest_churn_segment "customer_segment" in
  let! rate := item highest_churn_segment "churn_rate_percent" in
  let! _ := format_number ".2f" rate in
  match revenue_analysis_top10 results with
  | [] =>
      inr {| at_risk_pct := at_risk_pct; annual_impact := annual;
             highest_churn_segment := highest_churn_segment; top_revenue := None |}
  | top_revenue :: _ =>
      let! _ := item top_revenue "contract_type" in
      let! r := item top_revenue "total_monthly_revenue" in
      let! _ := format_number ",.2f" r in
      inr {| at_risk_pct := at_risk_pct; annual_impact := annual;
             highest_churn_segment := highest_churn_segment;
             top_revenue := Some top_revenue |}
  end.

(** [main] of modeling.py (named [modeling_main]: it is imported beside the
    [main] of the silver layer).  [validate_gold_models] reads tables that
    the script [gold_models.sql] creates and [save_results] writes a file;
    both are parameters. *)
Definition modeling_main (execute : string -> database -> result database)
           (sql_script : string)
           (validate_gold_models : database -> result Results)
           (save_results : Results -> result unit)
           (db : database) : result unit * database :=
  match build_gold_models execute sql_script db with
  | (inl e, db') => (inl e, db')
  | (inr _, db') =>
      match validate_gold_models db' with
      | inl e => (inl e, db')
      | inr results =>
          match generate_insights results with
          | inl e => (inl e, db')
          | inr _ =>
              match save_results results with
              | inl e => (inl e, db')
              | inr _ => (inr tt, db')
              end
          end
      end
  end.

End Modeling.

(* ===================================================================== *)
(** * ingestion.py: [validate_bronze_data] *)
(* ===================================================================== *)

Module Ingestion.

Record BronzeValidation : Type := mkBronze {
  file_exists : bool;
  row_count : Z;
  column_count : Z;
  columns : list string;
  memory_usage_mb : Q;
  has_nulls : bool;
  null_columns : list string;
  validation_timestamp : Z
}.

(** [df.isnull().any()], column by column. *)
Definition any_null (df : DataFrame) : list (string * bool) :=
  map (fun '(n, c) => (n, existsb is_nan c)) df.

(** [validate_bronze_data]: [read_csv] is the outcome of [pd.read_csv] on
    the path, [memory_usage_mb] the rounded size that pandas reports, [now]
    the clock and [write_json] the dump of the results beside the file. *)
Definition validate_bronze_data (read_csv : string -> result DataFrame)
           (memory_usage_mb : DataFrame -> Q) (now : Z)
           (write_json : BronzeValidation -> result unit)
           (file_path : string) : result BronzeValidation :=
  let! df := read_csv file_path in
  let validation_results :=
    {| file_exists := true;
       row_count := len df;
       column_count := Z.of_nat (List.length (map fst df));
       columns := map fst df;
       memory_usage_mb := memory_usage_mb df;
       has_nulls := existsb snd (any_null df);
       null_columns := map fst (filter snd (any_null df));
       validation_timestamp := now |} in
  let! _ := write_json validation_results in
  inr validation_results.

End Ingestion.

(* ===================================================================== *)
(** * orchestrator.py: [run_pipeline] *)
(* ===================================================================== *)

Module Orchestrator.

(** What the stages share: the bronze file, as [pd.read_csv] reads it, and
    the relational store. *)
Record World : Type := mkWorld {
  bronze : option DataFrame;
  store : database
}.

(** [transformation.main()] and [modeling.main()], run in the world. *)
Definition transformation_main (silver_staging_sql : database -> result database)
           (now : Z) (w : World) : result unit * World :=
  match Transformation.main (bronze w) silver_staging_sql now (store w) with
  | (inl e, db) => (inl e, {| bronze := bronze w; store := db |})
  | (inr _, db) => (inr tt, {| bronze := bronze w; store := db |})
  end.

Definition modeling_main (gold : database -> result unit * database)
           (w : World) : result unit * World :=
  match gold (store w) with
  | (r, db) => (r, {| bronze := bronze w; store := db |})
  end.

(** [run_pipeline]: the three stages in a [try]; any exception gives
    [False].  [ingestion_main] downloads from Kaggle and is a parameter, as
    are the staging script, the clock and the gold stage's own parameters
    (in [gold]). *)
Definition run_pipeline (ingestion_main : World -> result unit * World)
           (silver_staging_sql : database -> result database) (now : Z)
           (gold : database -> result unit * database)
           (w : World) : bool * World :=
  match ingestion_main w with
  | (inl _, w1) => (false, w1)
  | (inr _, w1) =>
      match transformation_main silver_staging_sql now w1 with
      | (inl _, w2) => (false, w2)
      | (inr _, w2) =>
          match modeling_main gold w2 with
          | (inl _, w3) => (false, w3)
          | (inr _, w3) => (true, w3)
          end
      end
  end.

(** The status with which the script exits. *)
Definition exit_status (success : bool) : Z := if success then 0 else 1.

End Orchestrator.

(* ===================================================================== *)
(** * The functional reading of [clean_and_transform] *)
(* ===================================================================== *)

(** The pure reading of a block: the exception it stops at, if any, and the
    frame as the block leaves it. *)
Fixpoint run_block (b : list stmt) (df : DataFrame) : option exn * DataFrame :=
  match b with
  | [] => (None, df)
  | s :: b' =>
      match s df with
      | inl e => (Some e, df)
      | inr df' => run_block b' df'
      end
  end.

Definition outcome (o : option exn) : result unit :=
  match o with
  | None => inr tt
  | Some e => inl e
  end.

(** ** The data-quality step, read as a function of the cleaned frame *)

Definition keep_first (ids : column) : list bool := map negb (duplicated ids).

Definition deduplicated (d : DataFrame) (ids : column) : DataFrame :=
  if (0 <? sum_bool (duplicated ids))%Z then select_rows (keep_first ids) d else d.

Definition clamped (name : string) (d : DataFrame) : DataFrame :=
  match clamp_negative name d with
  | inr d' => d'
  | inl _ => d
  end.

Definition repaired (d : DataFrame) : DataFrame :=
  clamped "monthly_charges" (clamped "tenure" d).

(** The frame returned for a cleaned frame [d1], and the summary logged. *)
Definition output (d1 : DataFrame) : DataFrame :=
  repaired (deduplicated d1 (col_of "customer_id" d1)).


(** ** Steps 1 to 5, read as a function of the raw frame *)

(** The columns the function reads, under their canonical names. *)
Definition required_columns : list string :=
  [ "total_charges"; "tenure"; "monthly_charges"; "senior_citizen"; "partner";
    "dependents"; "phone_service"; "paperless_billing"; "churn"; "gender";
    "online_security"; "online_backup"; "device_protection"; "tech_support";
    "streaming_tv"; "streaming_movies"; "multiple_lines"; "customer_id" ].

Definition has_column (d : DataFrame) (name : string) : bool :=
  match getcol name d with
  | Some _ => true
  | None => false
  end.

(** A raw frame the function accepts: after renaming, every column it reads
    is there, and [gender] is a string column. *)
Definition transformable (df : DataFrame) : bool :=
  forallb (has_column (rename column_mapping df)) required_columns
  && is_object (col_of "gender" (rename column_mapping df)).

(** [to_numeric(...).fillna(0)] *)
Definition coerce (c : column) : column := fillna (Int 0) (to_numeric c).

Definition int_of_cell (c : cell) : cell :=
  match c with
  | Int z => Int z
  | Float q => Int (Qtrunc q)
  | Bool b => Int (if b then 1 else 0)
  | _ => Int 0
  end.

Definition is_number (c : cell) : bool :=
  match number c with Some _ => true | None => false end.










(** ** Frames with plain numbers

    [pd.to_numeric] reads more texts than [parse_number] does: exponent
    notation ([1e3]) and the literals [inf] and [nan]; [astype(int)] raises
    on a value that is not finite, and a value beyond the 64-bit range
    wraps.  The embedding does not represent these.  It reads as pandas
    does the frames whose numeric columns are plain: every cell of tenure,
    monthly_charges and total_charges is missing, a number, or a text of at
    most 15 characters made of digits, a point, a sign and spaces only (a
    decimal of up to 15 digits is told apart from every other by its
    float64), and what the cells are read as lies strictly between -2^53
    and 2^53, where float64 holds every integer exactly.  The theorems that
    say what [clean_and_transform] returns are about these frames. *)







(** A frame is rectangular: every column has as many cells as the frame has
    rows. *)
Definition rectangular (d : DataFrame) : bool :=
  forallb (fun p => Nat.eqb (List.length (snd p)) (Z.to_nat (len d))) d.

Definition all_length (n : nat) (d : DataFrame) : Prop :=
  Forall (fun p => List.length (snd p) = n) d.



(** ** Raw frames for the scenarios *)

Definition raw_names : list string := map fst column_mapping.

(** The frame [pd.read_csv] gives for rows listed in the order of the raw
    header. *)
Definition raw_frame (rows : list (list cell)) : DataFrame :=
  map (fun '(i, n) => (n, map (fun r => nth i r NaN) rows))
      (combine (seq 0 (List.length raw_names)) raw_names).

(** One raw row; the fields the scenarios do not mention are fixed. *)
Definition customer (id tenure monthly total partner : string) : list cell :=
  [ Str id; Str "Female"; Int 0; Str partner; Str "No"; Str tenure; Str "No";
    Str "No phone service"; Str "DSL"; Str "No"; Str "Yes"; Str "No"; Str "No";
    Str "No"; Str "No"; Str "Month-to-month"; Str "Yes"; Str "Electronic check";
    Str monthly; Str total; Str "No" ].




(** Two customers at the boundaries of the first two segments. *)
Definition two_customers : DataFrame :=
  raw_frame [ customer "7590-VHVEG" "12" "29.85" "358.2" "Yes";
              customer "5575-GNVDE" "36" "56.95" "2050.2" "No" ].




(** The frame after steps 1 to 5. *)
Definition cleaned (df : DataFrame) : DataFrame :=
  snd (run_block cleaning_steps df).





(** A store that answers every statement with one error. *)
Definition always_fails (e : exn) : string -> database -> result database :=
  fun _ _ => inl e.

(** A store that executes every statement without any effect. *)
Definition no_effect : string -> database -> result database :=
  fun _ db => inr db.

(** A computation leaves the objects of [h0] as they are: it only adds
    objects or changes those added after [h0]; its value satisfies [Q]. *)
Definition preserves (h0 : heap) {A} (m : M A) (Q : A -> Prop) : Prop :=
  forall k, exists k',
    snd (m (h0 ++ k)) = h0 ++ k'
    /\ forall a, fst (m (h0 ++ k)) = inr a -> Q a.

(** A reference to an object that is not one of [h0]. *)
Definition fresh_for (h0 : heap) (r : ref) : Prop := (List.length h0 <= r)%nat.

(** A raw frame whose id column already bears the canonical name: the raw
    column customerID is absent. *)
Definition renamed_id : DataFrame :=
  match two_customers with
  | (_, c) :: rest => ("customer_id", c) :: rest
  | [] => []
  end.

(** A raw frame without the column TotalCharges. *)
Definition no_total : DataFrame :=
  filter (fun '(n, _) => negb (String.eqb n "TotalCharges")) two_customers.

(** ** The staging run, read as a function *)

(** The frame that [load_to_silver] hands to [to_sql]. *)
Definition load_frame (d : DataFrame) (now : Z) : result DataFrame :=
  select_columns column_order
    (setitem d "ingestion_timestamp" (repeat (Timestamp now) (Z.to_nat (len d)))).

(** A staging script that finds nothing to do. *)
Definition idle_script : database -> result database := fun db => inr db.

(** The staging table after a run of [main] on an empty store. *)
Definition staged_table (df_raw : DataFrame) (now : Z) : option DataFrame :=
  get_table "silver.customers_staging" (snd (main (Some df_raw) idle_script now [])).

(** Two runs on the same raw input, one hour apart. *)
Definition first_run : result ValidationResults * database :=
  main (Some two_customers) idle_script 1762266000 [].

Definition second_run : result ValidationResults * database :=
  main (Some two_customers) idle_script 1762269600 (snd first_run).

Definition results_of (run : result ValidationResults * database) : ValidationResults :=
  match fst run with
  | inr v => v
  | inl _ => mkValidation 0 0 0 0 []
  end.

(** A store in which only the first of two staged rows was written. *)
Definition partial_write : database :=
  match staged_table two_customers 1762266000 with
  | Some t => [("silver.customers_staging", select_rows [true; false] t)]
  | None => []
  end.

(** The staging table of a store, empty when there is none. *)
Definition staging_of (db : database) : DataFrame :=
  match get_table "silver.customers_staging" db with
  | Some t => t
  | None => []
  end.

(** ** The other columns of the cleaned frame *)






(** The kinds of exception with which [clean_and_transform] rejects a
    frame: a KeyError, for a column that it reads and does not find, or the
    AttributeError of the [.str] accessor. *)
Definition rejection (e : exn) : bool :=
  match e with
  | KeyError _ | AttributeError _ => true
  | _ => false
  end.


(** A statement raises only exceptions of the kind [P]. *)
Definition raises_only (P : exn -> Prop) (s : stmt) : Prop :=
  forall d e, s d = inl e -> P e.






(** ** The load, read as a function *)

(** The frame after [df['ingestion_timestamp'] = datetime.now()]. *)
Definition stamped (d : DataFrame) (now : Z) : DataFrame :=
  setitem d "ingestion_timestamp" (repeat (Timestamp now) (Z.to_nat (len d))).



(** The cleaned frame of the first scenario, as [clean_and_transform]
    returns it. *)
Definition cleaned_two : DataFrame := output (cleaned two_customers).

(** A cleaned frame that has lost its contract column. *)
Definition no_contract : DataFrame :=
  filter (fun '(n, _) => negb (String.eqb n "contract_type")) cleaned_two.

(** ** The validation figures *)

(** The sum of the counts of a distribution. *)
Definition sum_counts (groups : list (cell * Z)) : Z :=
  fold_right (fun g acc => snd g + acc) 0 groups.

(** A store whose staging table has the schema and no row. *)
Definition empty_staging : database :=
  [("silver.customers_staging", map (fun n => (n, [])) column_order)].






(** ** Gold scripts for the scenarios *)

(** A store that creates a table named after each statement it executes. *)
Definition records_statement : string -> database -> result database :=
  fun statement db => inr (put_table statement [] db).

(** A statement under a comment line. *)
Definition commented_statement : string :=
  "-- Churn summary by segment" ++ String (ascii_of_nat 10) ""
  ++ "CREATE TABLE gold.churn_summary AS SELECT 1".


(** ** Gold results for the scenarios *)

(** A value that a numeric format accepts. *)
Definition numeric (v : Modeling.value) : bool :=
  match v with
  | Modeling.VInt _ | Modeling.VFloat _ | Modeling.VNan => true
  | Modeling.VStr _ | Modeling.VNone => false
  end.

(** A value that is the number zero. *)
Definition is_zero (v : Modeling.value) : bool :=
  match Modeling.finite v with
  | Some q => Qeq_bool q 0
  | None => false
  end.

Definition segment_row (name : string) (customers : Z) (rate : Q) : Modeling.row :=
  [ ("customer_segment", Modeling.VStr name);
    ("total_customers", Modeling.VInt customers);
    ("churn_rate_percent", Modeling.VFloat rate);
    ("avg_tenure_months", Modeling.VFloat 20);
    ("avg_monthly_charges", Modeling.VFloat 60) ].

Definition executive_row (revenue at_risk : Q) : Modeling.row :=
  [ ("total_customers", Modeling.VInt 3);
    ("total_churned", Modeling.VInt 1);
    ("overall_churn_rate", Modeling.VFloat (100 # 3));
    ("total_monthly_revenue", Modeling.VFloat revenue);
    ("at_risk_revenue", Modeling.VFloat at_risk) ].

(** Results in which two segments have the highest churn rate. *)
Definition tied_results : Modeling.Results :=
  {| Modeling.executive_summary := executive_row 200 50;
     Modeling.churn_summary :=
       [ segment_row "Growing" 1 50; segment_row "Loyal" 1 10; segment_row "New" 1 50 ];
     Modeling.revenue_analysis_top10 := [] |}.

(** Results read from gold tables built on an empty staging table. *)
Definition empty_results : Modeling.Results :=
  {| Modeling.executive_summary := executive_row 0 0;
     Modeling.churn_summary := [];
     Modeling.revenue_analysis_top10 := [] |}.

(** ** Pipeline runs for the scenarios *)

(** An ingestion that leaves the given frame as the bronze file. *)
Definition ingests (df : DataFrame)
  : Orchestrator.World -> result unit * Orchestrator.World :=
  fun w => (inr tt, {| Orchestrator.bronze := Some df;
                       Orchestrator.store := Orchestrator.store w |}).

(** A gold stage that finds nothing to do. *)
Definition idle_gold : database -> result unit * database :=
  fun db => (inr tt, db).

Definition empty_world : Orchestrator.World :=
  {| Orchestrator.bronze := None; Orchestrator.store := [] |}.

(** A bronze frame with a missing cell. *)
Definition missing_cell : DataFrame :=
  setitem two_customers "Partner" [Str "Yes"; NaN].

(** The key [name] of a row is a value that a numeric format accepts. *)
Definition numeric_key (name : string) (x : Modeling.row) : Prop :=
  exists k, Modeling.item x name = inr k /\ numeric k = true.

(** [b] is no less than [a], as [max] sees it: [a] itself, or a greater
    number. *)
Definition improves (a b : Modeling.value) : Prop :=
  b = a \/ exists x y, Modeling.finite a = Some x /\ Modeling.finite b = Some y /\ (x < y)%Q.

(** Results whose executive summary reports no revenue. *)
Definition no_revenue_results : Modeling.Results :=
  {| Modeling.executive_summary := executive_row 0 0;
     Modeling.churn_summary := [ segment_row "New" 1 50 ];
     Modeling.revenue_analysis_top10 := [] |}.

(* ===================================================================== *)

(** * Basic facts about frames and the heap *)
(* ===================================================================== *)

Lemma getcol_setitem (df : DataFrame) (m n : string) (c : column) :
  getcol n (setitem df m c) = if String.eqb m n then Some c else getcol n df.
Proof.
  induction df as [|[k v] df IH]; simpl.
  - reflexivity.
  - destruct (String.eqb k m) eqn:Ekm; simpl.
    + apply String.eqb_eq in Ekm. subst k.
      destruct (String.eqb m n); reflexivity.
    + destruct (String.eqb k n) eqn:Ekn.
      * apply String.eqb_eq in Ekn. subst k.
        rewrite String.eqb_sym, Ekm. reflexivity.
      * exact IH.
Qed.

Lemma getcol_filter_name (df : DataFrame) (m n : string) :
  getcol n (filter (fun '(k, _) => negb (String.eqb k m)) df)
  = if String.eqb m n then None else getcol n df.
Proof.
  induction df as [|[k v] df IH]; simpl.
  - destruct (String.eqb m n); reflexivity.
  - destruct (String.eqb k m) eqn:Ekm; simpl.
    + apply String.eqb_eq in Ekm. subst k.
      rewrite IH. destruct (String.eqb m n); reflexivity.
    + destruct (String.eqb k n) eqn:Ekn.
      * apply String.eqb_eq in Ekn. subst k.
        rewrite String.eqb_sym, Ekm. reflexivity.
      * exact IH.
Qed.


Lemma nth_error_snoc {A} (l : list A) (x : A) :
  nth_error (l ++ [x]) (List.length l) = Some x.
Proof.
  rewrite nth_error_app2 by lia. rewrite Nat.sub_diag. reflexivity.
Qed.

Lemma update_snoc {A} (l : list A) (x y : A) :
  update (List.length l) y (l ++ [x]) = l ++ [y].
Proof.
  induction l as [|a l IH]; simpl; [reflexivity | now rewrite IH].
Qed.

Lemma run_block_app (b1 b2 : list stmt) (df : DataFrame) :
  run_block (b1 ++ b2) df =
  match run_block b1 df with
  | (None, df') => run_block b2 df'
  | (Some e, df') => (Some e, df')
  end.
Proof.
  revert df. induction b1 as [|s b1 IH]; intros df; simpl.
  - reflexivity.
  - destruct (s df); [reflexivity | apply IH].
Qed.

(** Running a block on the newest object of the heap changes that object
    only. *)
Lemma exec_block_last (b : list stmt) (h : heap) (df : DataFrame) :
  exec_block (List.length h) b (h ++ [df]) =
  (outcome (fst (run_block b df)), h ++ [snd (run_block b df)]).
Proof.
  revert df. induction b as [|s b IH]; intros df; simpl.
  - reflexivity.
  - unfold bind at 1. unfold inplace, bind, deref.
    rewrite nth_error_snoc.
    destruct (s df) as [e | df'] eqn:Es; simpl.
    + reflexivity.
    + rewrite update_snoc. apply IH.
Qed.

Lemma eval_last {A} (e : DataFrame -> result A) (h : heap) (df : DataFrame) :
  eval (List.length h) e (h ++ [df]) = (e df, h ++ [df]).
Proof.
  unfold eval, bind, deref. rewrite nth_error_snoc.
  destruct (e df); reflexivity.
Qed.



Lemma sum_bool_nonneg (m : list bool) : (0 <= sum_bool m)%Z.
Proof. unfold sum_bool. lia. Qed.






Lemma parse_unsigned_number (u : string) (n : cell) :
  parse_unsigned u = Some n -> is_number n = true.
Proof.
  unfold parse_unsigned.
  destruct (read_digits 0 0 u) as [[ip ni] rest].
  destruct rest as [|a frac].
  - destruct (0 <? ni)%nat; intros [= <-]; reflexivity.
  - destruct (Ascii.eqb a ".") eqn:E.
    + apply Ascii.eqb_eq in E. subst a.
      destruct (read_digits 0 0 frac) as [[fp nf] rest'].
      destruct rest'; [|discriminate].
      destruct (0 <? ni + nf)%nat; intros [= <-]; reflexivity.
    + destruct a as [[] [] [] [] [] [] [] []]; try discriminate.
Qed.

Lemma parse_number_number (s : string) (n : cell) :
  parse_number s = Some n -> is_number n = true.
Proof.
  unfold parse_number.
  assert (N : forall u, option_map negate (parse_unsigned u) = Some n ->
                        is_number n = true).
  { intros u. destruct (parse_unsigned u) as [x|] eqn:E; [|discriminate].
    apply parse_unsigned_number in E. intros [= <-].
    destruct x; unfold is_number in *; simpl in *; congruence. }
  destruct (PyStr.strip s) as [|a s']; [apply parse_unsigned_number|].
  destruct (Ascii.eqb a "-") eqn:E1.
  { apply Ascii.eqb_eq in E1. subst a. apply N. }
  destruct (Ascii.eqb a "+") eqn:E2.
  { apply Ascii.eqb_eq in E2. subst a. apply parse_unsigned_number. }
  destruct a as [[] [] [] [] [] [] [] []];
    try discriminate; apply parse_unsigned_number.
Qed.

Lemma coerce_numeric (c : column) : forallb is_number (coerce c) = true.
Proof.
  unfold coerce, fillna, to_numeric. rewrite map_map.
  induction c as [|x c IH]; simpl; [reflexivity|].
  rewrite IH, andb_true_r.
  destruct x as [ | z | q | s | b | t]; simpl; try reflexivity.
  destruct (parse_number s) as [n|] eqn:E; [|reflexivity].
  apply parse_number_number in E.
  destruct n; unfold is_number in *; simpl in *; congruence.
Qed.

Lemma astype_int_numeric (c : column) :
  forallb is_number c = true -> astype_int c = inr (map int_of_cell c).
Proof.
  induction c as [|x c IH]; simpl; [reflexivity|].
  intros H. apply andb_true_iff in H. destruct H as [Hx Hc].
  rewrite (IH Hc). destruct x; simpl in *; try discriminate; reflexivity.
Qed.

Lemma run_block_step (s : stmt) (b : list stmt) (d d' : DataFrame) :
  s d = inr d' -> run_block (s :: b) d = run_block b d'.
Proof. intros H. simpl. now rewrite H. Qed.

Lemma astype_int_coerce (c : column) :
  astype_int (fillna (Int 0) (to_numeric c)) = inr (map int_of_cell (coerce c)).
Proof. apply astype_int_numeric, coerce_numeric. Qed.


Lemma getcol_setitem_same (df : DataFrame) (n : string) (c : column) :
  getcol n (setitem df n c) = Some c.
Proof. now rewrite getcol_setitem, String.eqb_refl. Qed.

Lemma getcol_setitem_other (df : DataFrame) (m n : string) (c : column) :
  String.eqb m n = false -> getcol n (setitem df m c) = getcol n df.
Proof. intros H. now rewrite getcol_setitem, H. Qed.

Lemma getcol_filter_other (df : DataFrame) (m n : string) :
  String.eqb m n = false ->
  getcol n (filter (fun '(k, _) => negb (String.eqb k m)) df) = getcol n df.
Proof. intros H. now rewrite getcol_filter_name, H. Qed.




(** ** Segments *)








(** ** Rectangular frames *)

Lemma getcol_length (n : nat) (d : DataFrame) (name : string) (c : column) :
  all_length n d -> getcol name d = Some c -> List.length c = n.
Proof.
  induction 1 as [|[k v] d Hk Hd IH]; simpl; [discriminate|].
  destruct (String.eqb k name); [intros [= <-]; exact Hk | exact IH].
Qed.












Lemma rectangular_all_length (d : DataFrame) :
  rectangular d = true -> all_length (Z.to_nat (len d)) d.
Proof.
  unfold rectangular, all_length. rewrite forallb_forall, Forall_forall.
  intros H p Hp. apply Nat.eqb_eq. now apply H.
Qed.


(** ** Masks and duplicates *)

Lemma duplicated_from_length (seen s : column) :
  List.length (duplicated_from seen s) = List.length s.
Proof.
  revert seen. induction s as [|c s IH]; intros seen; simpl; [reflexivity|].
  now rewrite IH.
Qed.











(** ** Kept rows and repaired values *)






(** ** The summary of a run *)





(** ** The repair of one column *)

Lemma Q_eqb_refl (q : Q) : Q_eqb q q = true.
Proof. unfold Q_eqb. now rewrite Z.eqb_refl, Pos.eqb_refl. Qed.

Lemma cell_eqb_refl (c : cell) : cell_eqb c c = true.
Proof.
  destruct c; simpl; auto using Z.eqb_refl, Q_eqb_refl, String.eqb_refl.
  destruct b; reflexivity.
Qed.





(** ** Duplicates *)

Lemma Q_eqb_eq (x y : Q) : Q_eqb x y = true -> x = y.
Proof.
  unfold Q_eqb. destruct x as [a b], y as [c d]. simpl.
  intros H. apply andb_true_iff in H. destruct H as [H1 H2].
  apply Z.eqb_eq in H1. apply Pos.eqb_eq in H2. now subst.
Qed.

Lemma cell_eqb_eq (a b : cell) : cell_eqb a b = true <-> a = b.
Proof.
  split.
  - destruct a, b; simpl; try discriminate; intros H; try reflexivity.
    + apply Z.eqb_eq in H. now subst.
    + apply Q_eqb_eq in H. now subst.
    + apply String.eqb_eq in H. now subst.
    + apply Bool.eqb_prop in H. now subst.
    + apply Z.eqb_eq in H. now subst.
  - intros ->. apply cell_eqb_refl.
Qed.







(** ** Element-wise operations *)






(** ** The store *)

Lemma get_put_table (db : database) (name : string) (t : DataFrame) :
  get_table name (put_table name t db) = Some t.
Proof.
  induction db as [|[n t'] db IH]; simpl.
  - now rewrite String.eqb_refl.
  - destruct (String.eqb n name) eqn:E; simpl; rewrite E; [reflexivity | exact IH].
Qed.

Lemma to_sql_replace (d : DataFrame) (db : database) :
  to_sql d "customers_staging" "silver" IfReplace db
  = inr (put_table "silver.customers_staging" d db).
Proof.
  unfold to_sql. simpl.
  destruct (get_table "silver.customers_staging" db); reflexivity.
Qed.

Lemma nth_error_update {A} (l : list A) (n : nat) (x y : A) :
  nth_error l n = Some y -> nth_error (update n x l) n = Some x.
Proof.
  revert n. induction l as [|a l IH]; intros [|n]; simpl; try discriminate; auto.
Qed.

Lemma load_to_silver_run (h : heap) (r : ref) (d : DataFrame) (now : Z) (db : database) :
  nth_error h r = Some d ->
  fst (load_to_silver r now db h)
  = match load_frame d now with
    | inl e => inl e
    | inr t => inr (put_table "silver.customers_staging" t db)
    end.
Proof.
  intros Hr. unfold load_to_silver, load_frame.
  unfold bind at 1. unfold inplace, bind at 1, deref at 1. rewrite Hr.
  unfold broadcast at 1. cbv beta iota.
  set (d' := setitem d "ingestion_timestamp" _).
  unfold bind at 1. unfold bind at 1. unfold eval, bind at 1, deref at 1.
  rewrite (nth_error_update _ _ _ Hr).
  destruct (select_columns column_order d') as [e|t]; [reflexivity|].
  unfold ret at 1, alloc. cbv beta iota.
  unfold bind at 1, deref. rewrite nth_error_snoc.
  rewrite to_sql_replace. reflexivity.
Qed.

Lemma select_columns_names (names : list string) (d t : DataFrame) :
  select_columns names d = inr t -> map fst t = names.
Proof.
  revert t. induction names as [|n names IH]; simpl; intros t.
  - now intros [= <-].
  - destruct (getitem d n); simpl; [discriminate|].
    destruct (select_columns names d) as [e|rest]; simpl; [discriminate|].
    intros [= <-]. simpl. now rewrite (IH rest).
Qed.

Lemma select_columns_getcol (names : list string) (d t : DataFrame) (n : string) :
  select_columns names d = inr t ->
  getcol n t = if existsb (String.eqb n) names then getcol n d else None.
Proof.
  revert t. induction names as [|k names IH]; simpl; intros t.
  - now intros [= <-].
  - unfold getitem. destruct (getcol k d) as [c|] eqn:Ek; simpl; [|discriminate].
    destruct (select_columns names d) as [e|rest]; simpl; [discriminate|].
    intros [= <-]. simpl. rewrite (String.eqb_sym n k).
    destruct (String.eqb_spec k n) as [->|N]; simpl.
    + now rewrite Ek.
    + now apply IH.
Qed.

(** What a run of [main] that returns has done. *)
Lemma main_returns (df_raw : DataFrame)
      (script : database -> result database) (now : Z)
      (db db' : database) (v : ValidationResults) :
  main (Some df_raw) script now db = (inr v, db') ->
  exists r rep h out db1 t,
    clean_and_transform 0%nat [df_raw] = (inr (r, rep), h)
    /\ nth_error h r = Some out
    /\ script db = inr db1
    /\ load_frame out now = inr t
    /\ db' = put_table "silver.customers_staging" t db1
    /\ validate_silver_data db' = inr v.
Proof.
  unfold main, create_silver_table.
  destruct (clean_and_transform 0%nat [df_raw]) as [[e|[r rep]] h] eqn:Ec;
    [discriminate|].
  destruct (script db) as [e|db1] eqn:Es; [discriminate|].
  destruct (load_to_silver r now db1 h) as [[e|db2] h2] eqn:El; [discriminate|].
  intros [= Hv <-].
  destruct (nth_error h r) as [out|] eqn:Hr.
  - pose proof (@load_to_silver_run h r out now db1 Hr) as L. rewrite El in L. simpl in L.
    destruct (load_frame out now) as [e|t] eqn:Ef; [discriminate|].
    injection L as ->.
    exists r, rep, h, out, db1, t. repeat split; auto.
  - exfalso. unfold load_to_silver, bind at 1, inplace, bind at 1, deref at 1 in El.
    rewrite Hr in El. discriminate.
Qed.

(** ** A run that returns was given a frame the function accepts *)

Lemma run_block_cons_inv (s : stmt) (b : list stmt) (d d1 : DataFrame) :
  run_block (s :: b) d = (None, d1) ->
  exists d', s d = inr d' /\ run_block b d' = (None, d1).
Proof.
  simpl. destruct (s d) as [e|d']; [discriminate|]. eauto.
Qed.

Lemma assign_inv (name : string) (rhs : DataFrame -> result column)
      (d d' : DataFrame) :
  assign name rhs d = inr d' ->
  exists c, rhs d = inr c /\ d' = setitem d name c.
Proof.
  unfold assign. destruct (rhs d) as [e|c]; simpl; [discriminate|].
  intros [= <-]. eauto.
Qed.

Lemma derive_inv (name source : string) (f : column -> result column)
      (d d' : DataFrame) :
  derive name source f d = inr d' ->
  exists c c', getcol source d = Some c /\ f c = inr c' /\ d' = setitem d name c'.
Proof.
  intros H. unfold derive in H. apply assign_inv in H. destruct H as (c' & H & ->).
  unfold getitem in H. destruct (getcol source d) as [c|]; simpl in H; [|discriminate].
  eauto.
Qed.

Lemma drop_inv (name : string) (d d' : DataFrame) :
  drop name d = inr d' ->
  getcol name d <> None
  /\ d' = filter (fun '(n, _) => negb (String.eqb n name)) d.
Proof.
  unfold drop. destruct (getcol name d); [|discriminate].
  intros [= <-]. split; [discriminate | reflexivity].
Qed.

Lemma getitem_inv (d : DataFrame) (name : string) (c : column) :
  getitem d name = inr c -> getcol name d = Some c.
Proof. unfold getitem. destruct (getcol name d); congruence. Qed.

Ltac lookup_in H :=
  repeat first
    [ rewrite getcol_setitem_same in H
    | rewrite getcol_setitem_other in H by reflexivity
    | rewrite getcol_filter_other in H by reflexivity ].

Ltac invert_derive H :=
  let d' := fresh "d" in
  let Hs := fresh "Hs" in
  let c := fresh "c" in
  let c' := fresh "c'" in
  let Hg := fresh "Hg" in
  let Hf := fresh "Hf" in
  apply run_block_cons_inv in H; destruct H as (d' & Hs & H);
  apply derive_inv in Hs; destruct Hs as (c & c' & Hg & Hf & ->);
  lookup_in Hg.

Lemma cleaning_steps_accept (df d1 : DataFrame) :
  run_block cleaning_steps df = (None, d1) ->
  getcol "customer_id" d1 <> None ->
  transformable df = true.
Proof.
  intros H Hid.
  cbv [cleaning_steps step1_rename step2_missing step3_types step4_categorical
       step5_derived service_columns app for_each] in H.
  apply run_block_cons_inv in H. destruct H as (D & HD & H).
  injection HD as <-.
  set (D := rename column_mapping df) in *.
  do 11 invert_derive H.
  apply run_block_cons_inv in H. destruct H as (dd & Hdrop & H).
  apply drop_inv in Hdrop. destruct Hdrop as [Hchurn ->].
  do 8 invert_derive H.
  apply run_block_cons_inv in H. destruct H as (da & Ha & H).
  apply assign_inv in Ha. destruct Ha as (ca & Ha & ->).
  apply run_block_cons_inv in H. destruct H as (ds & Hsg & H).
  apply assign_inv in Hsg. destruct Hsg as (cs & Hsg & ->).
  invert_derive H.
  cbn [run_block] in H. apply (f_equal snd) in H. cbn [snd] in H. subst d1.
  lookup_in Hid.
  unfold transformable. fold D. unfold col_of.
  cbn [forallb required_columns]. unfold has_column.
  repeat match goal with
         | E : getcol ?n D = Some _ |- context [getcol ?n D] => rewrite E
         end.
  destruct (getcol "customer_id" D); [|contradiction].
  cbn [andb].
  match goal with
  | E : str_title ?c = inr _ |- _ =>
      unfold str_title in E; destruct (is_object c); [reflexivity | discriminate]
  end.
Qed.

Lemma clean_and_transform_accepts (h h' : heap) (r : ref) (df : DataFrame)
      (x : ref * Report) :
  nth_error h r = Some df ->
  clean_and_transform r h = (inr x, h') ->
  transformable df = true.
Proof.
  intros Hr. unfold clean_and_transform.
  unfold bind at 1. unfold copy, bind at 1, deref. rewrite Hr. unfold alloc.
  unfold bind at 1. rewrite eval_last. unfold pure at 1.
  unfold bind at 1. rewrite exec_block_last.
  destruct (run_block cleaning_steps df) as [[e|] d1] eqn:Hb; simpl fst; simpl snd;
    simpl outcome; [discriminate|].
  unfold bind at 1. rewrite eval_last. unfold count_duplicated at 1, getitem.
  destruct (getcol "customer_id" d1) as [ids|] eqn:Hi; simpl ebind; [|discriminate].
  intros _. apply (@cleaning_steps_accept df d1 Hb). congruence.
Qed.


Lemma missing_column_raises (h : heap) (r : ref) (df : DataFrame) (name : string) :
  nth_error h r = Some df ->
  In name required_columns ->
  getcol name (rename column_mapping df) = None ->
  exists e h', clean_and_transform r h = (inl e, h').
Proof.
  intros Hr Hin Hnone.
  destruct (clean_and_transform r h) as [[e|x] h'] eqn:E; [eauto|].
  pose proof (@clean_and_transform_accepts h h' r df x Hr E) as Ht.
  unfold transformable in Ht. apply andb_true_iff in Ht. destruct Ht as [Ht _].
  rewrite forallb_forall in Ht. specialize (Ht name Hin).
  unfold has_column in Ht. rewrite Hnone in Ht. discriminate.
Qed.

(* ===================================================================== *)
(** * C1: validation of the staged table *)
(* ===================================================================== *)

(** C1, as stated, fails: the validation is given the store only.  When the
    transformation has computed two final rows and the table holds one of
    them, the validation returns its results and raises nothing. *)
Lemma C1_no_comparison_with_computed_counts :
  exists r rep h v,
    clean_and_transform 0%nat [two_customers] = (inr (r, rep), h)
    /\ final_rows rep = 2
    /\ validate_silver_data partial_write = inr v
    /\ total_records v = 1
    /\ unique_customers v = 1.
Proof.
  vm_compute. do 4 eexists. repeat split.
Qed.

(** C1, amended: after the write, the run queries the store again, for the
    number of records, of distinct customers, of churned customers and of
    missing customer ids and for the segment distribution, and returns these
    figures; they are not compared with the counts computed in memory and no
    mismatch error exists: on a table with at least one row the validation
    returns, and what [main] returns is the validation of the store it
    leaves. *)
Theorem C1_validation_reads_store (db : database) (t : DataFrame)
        (ids churned segments : column) :
  get_table "silver.customers_staging" db = Some t ->
  getcol "customer_id" t = Some ids ->
  getcol "churned" t = Some churned ->
  getcol "customer_segment" t = Some segments ->
  len t <> 0 ->
  validate_silver_data db
  = inr {| total_records := len t;
           unique_customers := count_distinct ids;
           churned_count := count_true churned;
           null_check := sum_bool (map is_nan ids);
           segment_distribution := group_count segments |}
  /\ forall df_raw script now db0 v,
       main (Some df_raw) script now db0 = (inr v, db) ->
       validate_silver_data db = inr v.
Proof.
  intros Ht Hi Hc Hs Hn. split.
  - unfold validate_silver_data, query. rewrite Ht, Hi, Hc, Hs. simpl.
    apply Z.eqb_neq in Hn. now rewrite Hn.
  - intros df_raw script now db0 v Hm.
    destruct (main_returns _ _ _ _ Hm) as (r & rep & h & out & db1 & t' & _ & _ & _ & _ & _ & Hv).
    exact Hv.
Qed.

Lemma C1_validation_reads_store_witness :
  exists t ids churned segments,
    get_table "silver.customers_staging" partial_write = Some t
    /\ getcol "customer_id" t = Some ids
    /\ getcol "churned" t = Some churned
    /\ getcol "customer_segment" t = Some segments
    /\ len t <> 0
    /\ validate_silver_data partial_write
       = inr {| total_records := len t;
                unique_customers := count_distinct ids;
                churned_count := count_true churned;
                null_check := sum_bool (map is_nan ids);
                segment_distribution := group_count segments |}.
Proof.
  eexists _, _, _, _.
  assert (T : get_table "silver.customers_staging" partial_write
              = Some (staging_of partial_write)) by reflexivity.
  assert (I : getcol "customer_id" (staging_of partial_write)
              = Some [Str "7590-VHVEG"]) by reflexivity.
  assert (C : getcol "churned" (staging_of partial_write)
              = Some [Bool false]) by reflexivity.
  assert (S : getcol "customer_segment" (staging_of partial_write)
              = Some [Str "New"]) by reflexivity.
  assert (N : len (staging_of partial_write) <> 0) by (vm_compute; discriminate).
  repeat (split; [eassumption|]).
  exact (proj1 (C1_validation_reads_store partial_write T I C S N)).
Defined.

(* ===================================================================== *)
(** * C2: customer segments *)
(* ===================================================================== *)




(* ===================================================================== *)
(** * C3: boolean coercion *)
(* ===================================================================== *)






(* ===================================================================== *)
(** * C4: duplicate resolution *)
(* ===================================================================== *)



(* ===================================================================== *)
(** * C5: range repair *)
(* ===================================================================== *)



(* ===================================================================== *)
(** * C6: average monthly revenue *)
(* ===================================================================== *)



(* ===================================================================== *)
(** * C7: running twice *)
(* ===================================================================== *)

(** C7, as stated, fails: the staged records carry the time of the run, so
    two runs on one raw input at different times leave different tables. *)
Lemma C7_second_run_differs :
  first_run = (inr (results_of first_run), snd first_run)
  /\ second_run = (inr (results_of second_run), snd second_run)
  /\ get_table "silver.customers_staging" (snd first_run)
     <> get_table "silver.customers_staging" (snd second_run).
Proof.
  split; [vm_compute; reflexivity|]. split; [vm_compute; reflexivity|].
  intros H.
  apply (f_equal (fun o => match o with
                           | Some t => getcol "ingestion_timestamp" t
                           | None => None
                           end)) in H.
  vm_compute in H. discriminate.
Qed.

Lemma len_by_first_column (t : DataFrame) (n : string) (names : list string) :
  map fst t = n :: names -> len t = Z.of_nat (List.length (col_of n t)).
Proof.
  destruct t as [|[k c] t]; simpl; [discriminate|].
  intros [= -> _]. unfold col_of. simpl. now rewrite String.eqb_refl.
Qed.

Lemma validate_by_columns (db db' : database) (t t' : DataFrame) :
  get_table "silver.customers_staging" db = Some t ->
  get_table "silver.customers_staging" db' = Some t' ->
  len t = len t' ->
  getcol "customer_id" t = getcol "customer_id" t' ->
  getcol "churned" t = getcol "churned" t' ->
  getcol "customer_segment" t = getcol "customer_segment" t' ->
  validate_silver_data db = validate_silver_data db'.
Proof.
  intros H H' L I C S. unfold validate_silver_data, query.
  rewrite H, H'. cbn [ebind]. now rewrite L, I, C, S.
Qed.

Lemma load_frame_columns (out t : DataFrame) (now : Z) (name : string) :
  load_frame out now = inr t ->
  getcol name t
  = if String.eqb name "ingestion_timestamp"
    then Some (repeat (Timestamp now) (Z.to_nat (len out)))
    else if existsb (String.eqb name) column_order then getcol name out else None.
Proof.
  intros H. unfold load_frame in H.
  rewrite (select_columns_getcol _ _ name H), getcol_setitem.
  rewrite (String.eqb_sym "ingestion_timestamp" name).
  destruct (String.eqb_spec name "ingestion_timestamp") as [->|N]; reflexivity.
Qed.

(** C7, amended: two runs of the pipeline on one raw input leave staging
    tables that are equal in every column but the ingestion timestamp,
    which holds the time of each run (the tables are identical when the two
    times are).  The second run replaces the table: what it leaves does not
    depend on the store it started from, and the validation figures of the
    two runs are the same. *)
Theorem C7_full_replace (df_raw : DataFrame)
        (script : database -> result database) (now1 now2 : Z)
        (db0 db1 db2 : database) (v1 v2 : ValidationResults) :
  main (Some df_raw) script now1 db0 = (inr v1, db1) ->
  main (Some df_raw) script now2 db1 = (inr v2, db2) ->
  exists t1 t2 rows,
    get_table "silver.customers_staging" db1 = Some t1
    /\ get_table "silver.customers_staging" db2 = Some t2
    /\ map fst t1 = column_order
    /\ map fst t2 = column_order
    /\ (forall name, name <> "ingestion_timestamp" -> getcol name t2 = getcol name t1)
    /\ getcol "ingestion_timestamp" t1 = Some (repeat (Timestamp now1) rows)
    /\ getcol "ingestion_timestamp" t2 = Some (repeat (Timestamp now2) rows)
    /\ (now1 = now2 -> t2 = t1)
    /\ v2 = v1
    /\ (forall script' db v db',
          main (Some df_raw) script' now2 db = (inr v, db') ->
          get_table "silver.customers_staging" db' = Some t2).
Proof.
  intros H1 H2.
  destruct (main_returns _ _ _ _ H1)
    as (r & rep & h & out & db1' & t1 & Hc & Hr & _ & Hf1 & -> & Hv1).
  destruct (main_returns _ _ _ _ H2)
    as (r2 & rep2 & h2 & out2 & db2' & t2 & Hc2 & Hr2 & _ & Hf2 & -> & Hv2).
  rewrite Hc in Hc2. injection Hc2 as <- <- <-.
  rewrite Hr in Hr2. injection Hr2 as <-.
  exists t1, t2, (Z.to_nat (len out)).
  assert (Hsame : forall name, name <> "ingestion_timestamp" ->
                               getcol name t2 = getcol name t1).
  { intros name N. rewrite (@load_frame_columns out t1 now1 name Hf1),
      (@load_frame_columns out t2 now2 name Hf2).
    apply String.eqb_neq in N. now rewrite N. }
  split; [apply get_put_table|]. split; [apply get_put_table|].
  split; [apply (select_columns_names _ _ Hf1)|].
  split; [apply (select_columns_names _ _ Hf2)|].
  split; [exact Hsame|].
  split; [now rewrite (@load_frame_columns out t1 now1 "ingestion_timestamp" Hf1)|].
  split; [now rewrite (@load_frame_columns out t2 now2 "ingestion_timestamp" Hf2)|].
  split; [intros <-; congruence|].
  split.
  { assert (E : validate_silver_data
                  (put_table "silver.customers_staging" t2 db2')
                = validate_silver_data
                    (put_table "silver.customers_staging" t1 db1')).
    { apply validate_by_columns with (t := t2) (t' := t1);
        try apply get_put_table; try (apply Hsame; discriminate).
      rewrite (@len_by_first_column t2 _ _ (select_columns_names _ _ Hf2)).
      rewrite (@len_by_first_column t1 _ _ (select_columns_names _ _ Hf1)).
      unfold col_of. rewrite (Hsame "customer_id"); [reflexivity | discriminate]. }
    rewrite Hv1, Hv2 in E. now injection E. }
  intros script' db v db' H3.
  destruct (main_returns _ _ _ _ H3)
    as (r3 & rep3 & h3 & out3 & db3 & t3 & Hc3 & Hr3 & _ & Hf3 & -> & _).
  rewrite Hc in Hc3. injection Hc3 as <- <- <-.
  rewrite Hr in Hr3. injection Hr3 as <-.
  rewrite Hf2 in Hf3. injection Hf3 as <-.
  apply get_put_table.
Qed.

Lemma C7_full_replace_witness :
  main (Some two_customers) idle_script 1762266000 []
  = (inr (results_of first_run), snd first_run)
  /\ main (Some two_customers) idle_script 1762269600 (snd first_run)
     = (inr (results_of second_run), snd second_run)
  /\ exists t1 t2,
       get_table "silver.customers_staging" (snd first_run) = Some t1
       /\ get_table "silver.customers_staging" (snd second_run) = Some t2
       /\ (forall name, name <> "ingestion_timestamp" ->
                        getcol name t2 = getcol name t1)
       /\ results_of second_run = results_of first_run.
Proof.
  assert (R1 : main (Some two_customers) idle_script 1762266000 []
               = (inr (results_of first_run), snd first_run))
    by (vm_compute; reflexivity).
  assert (R2 : main (Some two_customers) idle_script 1762269600 (snd first_run)
               = (inr (results_of second_run), snd second_run))
    by (vm_compute; reflexivity).
  split; [exact R1|]. split; [exact R2|].
  destruct (@C7_full_replace _ _ _ _ _ _ _ _ _ R1 R2)
    as (t1 & t2 & rows & H1 & H2 & _ & _ & H3 & _ & _ & _ & H4 & _).
  exists t1, t2. auto.
Defined.

(* ===================================================================== *)
(** * C8: column renaming *)
(* ===================================================================== *)

(** C8, as stated, fails: a frame in which the raw column customerID is
    absent (the column is already called customer_id) passes the renaming
    step, and the whole transformation returns. *)
Lemma C8_absent_raw_column_accepted :
  In "customerID" (map fst column_mapping)
  /\ getcol "customerID" renamed_id = None
  /\ fst (run_block step1_rename renamed_id) = None
  /\ exists r rep h,
       clean_and_transform 0%nat [renamed_id] = (inr (r, rep), h).
Proof.
  split; [now left|]. split; [reflexivity|]. split; [reflexivity|].
  vm_compute. do 3 eexists. reflexivity.
Qed.

Lemma rename_names (m : list (string * string)) (df : DataFrame) :
  map fst (rename m df) = map (rename_name m) (map fst df).
Proof.
  unfold rename. rewrite !map_map. apply map_ext. now intros [n c].
Qed.

Lemma rename_contents (m : list (string * string)) (df : DataFrame) :
  map snd (rename m df) = map snd df.
Proof.
  unfold rename. rewrite !map_map. apply map_ext. now intros [n c].
Qed.

Lemma rename_name_other (m : list (string * string)) (n : string) :
  ~ In n (map fst m) -> rename_name m n = n.
Proof.
  induction m as [|[old new] m IH]; simpl; [reflexivity|].
  intros H. destruct (String.eqb_spec old n) as [->|N].
  - exfalso. apply H. now left.
  - apply IH. intros I. apply H. now right.
Qed.

Lemma cleaning_steps_missing_total (df : DataFrame) :
  getcol "total_charges" (rename column_mapping df) = None ->
  run_block cleaning_steps df
  = (Some (KeyError "total_charges"), rename column_mapping df).
Proof.
  intros H. unfold cleaning_steps, step1_rename, step2_missing.
  cbn [app]. erewrite run_block_step by reflexivity.
  cbn [run_block]. unfold derive at 1, assign, getitem. now rewrite H.
Qed.

(** C8, amended: the renaming step never fails.  It gives every column
    whose name is a key of the static mapping its canonical name, keeps the
    other names, and leaves the contents and the order of the columns as
    they are; a raw name that is absent is ignored.  A column that is
    missing under both its names is met later, when it is first read: the
    transformation then raises, and without a total_charges column the
    exception is KeyError. *)
Theorem C8_schema_normalizer (df : DataFrame) :
  run_block step1_rename df = (None, rename column_mapping df)
  /\ map fst (rename column_mapping df)
     = map (rename_name column_mapping) (map fst df)
  /\ map snd (rename column_mapping df) = map snd df
  /\ (forall raw_name canonical,
        In (raw_name, canonical) column_mapping ->
        rename_name column_mapping raw_name = canonical)
  /\ (forall n, ~ In n (map fst column_mapping) -> rename_name column_mapping n = n)
  /\ (forall h r,
        nth_error h r = Some df ->
        getcol "total_charges" (rename column_mapping df) = None ->
        clean_and_transform r h
        = (inl (KeyError "total_charges"), h ++ [rename column_mapping df]))
  /\ (forall h r name,
        nth_error h r = Some df ->
        In name required_columns ->
        getcol name (rename column_mapping df) = None ->
        exists e h', clean_and_transform r h = (inl e, h')).
Proof.
  split; [reflexivity|]. split; [apply rename_names|].
  split; [apply rename_contents|]. split; [|split; [|split]].
  4:{ intros h r name. apply missing_column_raises. }
  - intros raw_name canonical H. unfold column_mapping in H.
    repeat (destruct H as [H|H]; [injection H as <- <-; reflexivity|]).
    destruct H.
  - apply rename_name_other.
  - intros h r Hr H. unfold clean_and_transform.
    unfold bind at 1. unfold copy, bind at 1, deref. rewrite Hr. unfold alloc.
    unfold bind at 1. rewrite eval_last. unfold pure at 1.
    unfold bind at 1. rewrite exec_block_last, (cleaning_steps_missing_total df H).
    reflexivity.
Qed.

Lemma C8_schema_normalizer_witness :
  nth_error [no_total] 0 = Some no_total
  /\ getcol "total_charges" (rename column_mapping no_total) = None
  /\ clean_and_transform 0%nat [no_total]
     = (inl (KeyError "total_charges"), [no_total] ++ [rename column_mapping no_total]).
Proof.
  split; [reflexivity|]. split; [reflexivity|].
  apply (proj1 (proj2 (proj2 (proj2 (proj2 (proj2 (C8_schema_normalizer no_total))))))
           [no_total] 0%nat eq_refl eq_refl).
Defined.

(* ===================================================================== *)
(** * C9: errors of the gold script *)
(* ===================================================================== *)

Import Modeling.

Lemma startswith_lower (p s : string) :
  PyStr.startswith p s = true ->
  PyStr.startswith (PyStr.lower p) (PyStr.lower s) = true.
Proof.
  revert s. induction p as [|a p IH]; intros [|b s]; simpl; try discriminate; auto.
  intros H. apply andb_true_iff in H. destruct H as [Hab Hps].
  apply Ascii.eqb_eq in Hab. subst b.
  now rewrite Ascii.eqb_refl, IH.
Qed.

Lemma contains_lower (p s : string) :
  PyStr.contains p s = true ->
  PyStr.contains (PyStr.lower p) (PyStr.lower s) = true.
Proof.
  induction s as [|b s IH].
  - simpl. rewrite orb_false_r. intros H.
    apply startswith_lower in H. simpl in H. now rewrite H.
  - simpl. intros H. apply orb_true_iff in H. destruct H as [H|H].
    + apply startswith_lower in H. simpl in H. now rewrite H.
    + rewrite (IH H). apply orb_true_r.
Qed.

(** C9, as stated, fails in its second half: an error whose text holds the
    words in capitals contains neither phrase, yet it is swallowed and the
    script runs on, because the code compares the text in lower case. *)
Lemma C9_capital_letters_are_swallowed :
  let e := DBError "ERROR: RELATION gold.churn_summary ALREADY EXISTS" in
  PyStr.contains "already exists" (str_exn e) = false
  /\ PyStr.contains "does not exist" (str_exn e) = false
  /\ statements_of "CREATE TABLE gold.churn_summary (n int); SELECT 1;"
     = ["CREATE TABLE gold.churn_summary (n int)"; "SELECT 1"]
  /\ build_gold_models (always_fails e)
       "CREATE TABLE gold.churn_summary (n int); SELECT 1;" []
     = (inr tt, []).
Proof. vm_compute. repeat split. Qed.

(** C9, amended: a statement that fails with an error whose text, letter
    case ignored, contains "already exists" or "does not exist" is skipped
    and the loop goes on with the next statement from the same store; any
    other error is raised again and ends the run.  In particular an error
    whose text contains one of the two phrases as written is skipped. *)
Theorem C9_expected_errors
        (execute : string -> database -> result database)
        (statement : string) (rest : list string) (db : database) (e : exn) :
  String.eqb statement "" || PyStr.startswith "--" statement = false ->
  execute statement db = inl e ->
  expected_error e
  = PyStr.contains "does not exist" (PyStr.lower (str_exn e))
    || PyStr.contains "already exists" (PyStr.lower (str_exn e))
  /\ (expected_error e = true ->
      run_statements execute (statement :: rest) db
      = run_statements execute rest db)
  /\ (expected_error e = false ->
      run_statements execute (statement :: rest) db = (inl e, db))
  /\ (PyStr.contains "already exists" (str_exn e) = true
      \/ PyStr.contains "does not exist" (str_exn e) = true ->
      run_statements execute (statement :: rest) db
      = run_statements execute rest db).
Proof.
  intros Hs He.
  assert (Hx : expected_error e
               = PyStr.contains "does not exist" (PyStr.lower (str_exn e))
                 || PyStr.contains "already exists" (PyStr.lower (str_exn e))).
  { unfold expected_error.
    destruct (PyStr.contains "does not exist" _), (PyStr.contains "already exists" _);
      reflexivity. }
  assert (Hrun : run_statements execute (statement :: rest) db
                 = if expected_error e
                   then run_statements execute rest db else (inl e, db)).
  { cbn [run_statements]. now rewrite Hs, He. }
  split; [exact Hx|]. split; [|split].
  - intros H. now rewrite Hrun, H.
  - intros H. now rewrite Hrun, H.
  - intros H. rewrite Hrun, Hx.
    destruct H as [H|H]; apply contains_lower in H.
    + change (PyStr.lower "already exists") with "already exists" in H.
      rewrite H. now rewrite orb_true_r.
    + change (PyStr.lower "does not exist") with "does not exist" in H.
      now rewrite H.
Qed.

Lemma C9_expected_errors_witness :
  String.eqb "DROP TABLE gold.t" "" || PyStr.startswith "--" "DROP TABLE gold.t" = false
  /\ always_fails (DBError "table gold.t does not exist") "DROP TABLE gold.t" []
     = inl (DBError "table gold.t does not exist")
  /\ (expected_error (DBError "table gold.t does not exist") = true ->
      run_statements (always_fails (DBError "table gold.t does not exist"))
        ["DROP TABLE gold.t"; "SELECT 1"] []
      = run_statements (always_fails (DBError "table gold.t does not exist"))
          ["SELECT 1"] []).
Proof.
  split; [reflexivity|]. split; [reflexivity|].
  apply (@C9_expected_errors
           (always_fails (DBError "table gold.t does not exist"))
           "DROP TABLE gold.t" ["SELECT 1"] []
           (DBError "table gold.t does not exist") eq_refl eq_refl).
Defined.

(* ===================================================================== *)
(** * C10: the caller's frame *)
(* ===================================================================== *)

Lemma update_app_ge {A} (l k : list A) (n : nat) (x : A) :
  (List.length l <= n)%nat ->
  update n x (l ++ k) = l ++ update (n - List.length l) x k.
Proof.
  revert n. induction l as [|a l IH]; intros n H; simpl.
  - now rewrite Nat.sub_0_r.
  - destruct n as [|n]; [simpl in H; lia|]. simpl in H.
    simpl. f_equal. apply IH. lia.
Qed.

Section Preservation.

Variable h0 : heap.

Lemma preserves_ret {A} (a : A) : preserves h0 (ret a) (fun x => x = a).
Proof. intros k. exists k. split; [reflexivity|]. simpl. congruence. Qed.

Lemma preserves_raise {A} (e : exn) (Q : A -> Prop) : preserves h0 (raise e) Q.
Proof. intros k. exists k. split; [reflexivity|]. simpl. discriminate. Qed.

Lemma preserves_bind {A B} (m : M A) (f : A -> M B)
      (Q : A -> Prop) (R : B -> Prop) :
  preserves h0 m Q ->
  (forall a, Q a -> preserves h0 (f a) R) ->
  preserves h0 (bind m f) R.
Proof.
  intros Hm Hf k. destruct (Hm k) as (k1 & E1 & Q1).
  unfold bind. destruct (m (h0 ++ k)) as [[e|a] h1]; simpl in *.
  - exists k1. split; [exact E1 | discriminate].
  - subst h1. apply (Hf a (Q1 a eq_refl) k1).
Qed.

Lemma preserves_weaken {A} (m : M A) (Q R : A -> Prop) :
  preserves h0 m Q -> (forall a, Q a -> R a) -> preserves h0 m R.
Proof.
  intros Hm HQR k. destruct (Hm k) as (k' & E & HQ).
  exists k'. split; [exact E | auto].
Qed.

Lemma preserves_deref (r : ref) : preserves h0 (deref r) (fun _ => True).
Proof.
  intros k. exists k. unfold deref.
  destruct (nth_error (h0 ++ k) r); simpl; auto.
Qed.

Lemma preserves_alloc (d : DataFrame) : preserves h0 (alloc d) (fresh_for h0).
Proof.
  intros k. exists (k ++ [d]). unfold alloc. simpl. split.
  - now rewrite app_assoc.
  - intros a [= <-]. unfold fresh_for. rewrite length_app. lia.
Qed.

Lemma preserves_copy (r : ref) : preserves h0 (copy r) (fresh_for h0).
Proof.
  unfold copy. eapply preserves_bind; [apply preserves_deref|].
  intros d _. apply preserves_alloc.
Qed.

Lemma preserves_eval {A} (r : ref) (e : DataFrame -> result A) :
  preserves h0 (eval r e) (fun _ => True).
Proof.
  unfold eval. eapply preserves_bind; [apply preserves_deref|].
  intros d _. destruct (e d).
  - apply preserves_raise.
  - eapply preserves_weaken; [apply preserves_ret | auto].
Qed.

Lemma preserves_inplace (r : ref) (s : stmt) :
  fresh_for h0 r -> preserves h0 (inplace r s) (fun _ => True).
Proof.
  intros Hr. unfold inplace. eapply preserves_bind; [apply preserves_deref|].
  intros d _. destruct (s d) as [e|d'].
  - apply preserves_raise.
  - intros k. exists (update (r - List.length h0) d' k). simpl.
    split; [now apply update_app_ge | auto].
Qed.

Lemma preserves_exec_block (r : ref) (b : list stmt) :
  fresh_for h0 r -> preserves h0 (exec_block r b) (fun _ => True).
Proof.
  intros Hr. induction b as [|s b IH]; simpl.
  - eapply preserves_weaken; [apply preserves_ret | auto].
  - eapply preserves_bind; [now apply preserves_inplace|]. intros _ _. exact IH.
Qed.

Lemma preserves_clean_and_transform (r : ref) :
  preserves h0 (clean_and_transform r) (fun _ => True).
Proof.
  unfold clean_and_transform.
  eapply preserves_bind; [apply preserves_copy|]. intros df_clean F1.
  eapply preserves_bind; [apply preserves_eval|]. intros initial _.
  eapply preserves_bind; [now apply preserves_exec_block|]. intros _ _.
  eapply preserves_bind; [apply preserves_eval|]. intros dups _.
  eapply preserves_bind with (Q := fresh_for h0).
  { destruct (0 <? dups)%Z.
    - eapply preserves_bind; [apply preserves_eval|].
      intros d _. apply preserves_alloc.
    - eapply preserves_weaken; [apply preserves_ret|]. now intros a ->. }
  intros df_clean' F2.
  eapply preserves_bind; [apply preserves_eval|]. intros it _.
  eapply preserves_bind; [apply preserves_eval|]. intros ic _.
  eapply preserves_bind with (Q := fun _ => True).
  { destruct (0 <? it)%Z; [now apply preserves_inplace|].
    eapply preserves_weaken; [apply preserves_ret | auto]. }
  intros _ _.
  eapply preserves_bind with (Q := fun _ => True).
  { destruct (0 <? ic)%Z; [now apply preserves_inplace|].
    eapply preserves_weaken; [apply preserves_ret | auto]. }
  intros _ _.
  eapply preserves_bind; [apply preserves_eval|]. intros fr _.
  eapply preserves_bind; [apply preserves_eval|]. intros nv _.
  eapply preserves_bind; [apply preserves_eval|]. intros rem _.
  eapply preserves_weaken; [apply preserves_ret | auto].
Qed.

End Preservation.

(** An in-place statement does change the object it is given. *)
Lemma inplace_writes (h : heap) (r : ref) (s : stmt) (d d' : DataFrame) :
  nth_error h r = Some d -> s d = inr d' ->
  nth_error (snd (inplace r s h)) r = Some d'.
Proof.
  intros Hr Hs. unfold inplace, bind, deref. rewrite Hr, Hs. simpl.
  revert r Hr. induction h as [|x h IH]; intros [|r]; simpl; try discriminate; auto.
Qed.

(** C10: whatever [clean_and_transform] does, returning or raising, every
    frame that was in the heap before the call, the caller's frame among
    them, is there unchanged after it: the heap after the call is the heap
    before it followed by new objects. *)
Theorem C10_input_not_mutated (h : heap) (r : ref) :
  (exists new_objects, snd (clean_and_transform r h) = h ++ new_objects)
  /\ firstn (List.length h) (snd (clean_and_transform r h)) = h
  /\ forall i df, nth_error h i = Some df ->
                  nth_error (snd (clean_and_transform r h)) i = Some df.
Proof.
  destruct (preserves_clean_and_transform h r []) as (k & E & _).
  rewrite app_nil_r in E. rewrite E.
  split; [now exists k|]. split.
  - rewrite firstn_app, Nat.sub_diag, firstn_all. simpl. apply app_nil_r.
  - intros i df H. rewrite nth_error_app1; [exact H|].
    apply nth_error_Some. congruence.
Qed.

Lemma C10_input_not_mutated_witness :
  nth_error [two_customers] 0 = Some two_customers
  /\ nth_error (snd (clean_and_transform 0%nat [two_customers])) 0
     = Some two_customers.
Proof.
  split; [reflexivity|].
  apply (proj2 (proj2 (C10_input_not_mutated [two_customers] 0%nat))).
  reflexivity.
Defined.

(* ===================================================================== *)
(** * Further properties of [clean_and_transform] *)
(* ===================================================================== *)




Lemma run_block_raises_only (P : exn -> Prop) (b : list stmt) :
  Forall (raises_only P) b ->
  forall d d' e, run_block b d = (Some e, d') -> P e.
Proof.
  induction 1 as [|s b Hs Hb IH]; intros d d' e; cbn [run_block].
  - discriminate.
  - destruct (s d) as [e'|d2] eqn:E.
    + intros [= <- _]. exact (Hs d e' E).
    + apply IH.
Qed.

Lemma raises_only_derive (P : exn -> Prop) (name source : string)
      (f : column -> result column) :
  P (KeyError source) ->
  (forall c e, f c = inl e -> P e) ->
  raises_only P (derive name source f).
Proof.
  intros Hk Hf d e. unfold derive, assign, getitem.
  destruct (getcol source d) as [c|]; cbn [ebind].
  - destruct (f c) as [e'|c'] eqn:E; cbn [ebind]; [|discriminate].
    intros [= <-]. exact (Hf c e' E).
  - intros [= <-]. exact Hk.
Qed.

Lemma raises_only_derive_pure (P : exn -> Prop) (name source : string)
      (f : column -> column) :
  P (KeyError source) -> raises_only P (derive name source (pure f)).
Proof.
  intros Hk. apply raises_only_derive; [exact Hk|]. intros c e H. discriminate H.
Qed.

Lemma cleaning_steps_raise (d d' : DataFrame) (e : exn) :
  run_block cleaning_steps d = (Some e, d') -> rejection e = true.
Proof.
  rewrite <- (firstn_skipn 22 cleaning_steps), run_block_app.
  destruct (run_block (firstn 22 cleaning_steps) d) as [[e1|] d1] eqn:E1.
  - intros [= <- _]. revert E1.
    apply (@run_block_raises_only (fun e => rejection e = true)).
    cbv [cleaning_steps step1_rename step2_missing step3_types step4_categorical
         step5_derived service_columns app for_each firstn].
    repeat first
      [ apply Forall_nil
      | apply Forall_cons
      | apply raises_only_derive_pure; reflexivity ].
    + intros x y H. discriminate H.
    + apply raises_only_derive; [reflexivity|].
      intros c y H. rewrite astype_int_coerce in H. discriminate H.
    + intros x y. unfold drop. destruct (getcol "churn" x); [discriminate|].
      intros [= <-]. reflexivity.
    + apply raises_only_derive; [reflexivity|].
      intros c y. unfold str_title. destruct (is_object c); [discriminate|].
      intros [= <-]. reflexivity.
    + intros x y. unfold assign, getitem.
      destruct (getcol "tenure" x); cbn [ebind]; [|intros [= <-]; reflexivity].
      destruct (getcol "total_charges" x); cbn [ebind]; [|intros [= <-]; reflexivity].
      destruct (getcol "monthly_charges" x); cbn [ebind]; [|intros [= <-]; reflexivity].
      discriminate.
  - cbv [cleaning_steps step1_rename step2_missing step3_types step4_categorical
         step5_derived service_columns app for_each skipn].
    cbn [run_block]. unfold assign at 1, getitem.
    destruct (getcol "tenure" d1); cbn [ebind]; [|intros [= <- _]; reflexivity].
    unfold derive, assign, getitem. rewrite getcol_setitem_same. cbn [ebind].
    discriminate.
Qed.

(** When steps 1 to 5 raise, the exception leaves [clean_and_transform]. *)
Lemma clean_and_transform_raises (h : heap) (r : ref) (df d : DataFrame) (e : exn) :
  nth_error h r = Some df ->
  run_block cleaning_steps df = (Some e, d) ->
  clean_and_transform r h = (inl e, h ++ [d]).
Proof.
  intros Hr Hb. unfold clean_and_transform.
  unfold bind at 1. unfold copy, bind at 1, deref. rewrite Hr. unfold alloc.
  unfold bind at 1. rewrite eval_last. unfold pure at 1.
  unfold bind at 1. rewrite exec_block_last, Hb. reflexivity.
Qed.

Lemma clean_and_transform_no_id (h : heap) (r : ref) (df d1 : DataFrame) :
  nth_error h r = Some df ->
  run_block cleaning_steps df = (None, d1) ->
  getcol "customer_id" d1 = None ->
  clean_and_transform r h = (inl (KeyError "customer_id"), h ++ [d1]).
Proof.
  intros Hr Hb Hi. unfold clean_and_transform.
  unfold bind at 1. unfold copy, bind at 1, deref. rewrite Hr. unfold alloc.
  unfold bind at 1. rewrite eval_last. unfold pure at 1.
  unfold bind at 1. rewrite exec_block_last, Hb. simpl fst; simpl snd; simpl outcome.
  unfold bind at 1. rewrite eval_last. unfold count_duplicated at 1, getitem.
  rewrite Hi. reflexivity.
Qed.






(** A frame that is not accepted is rejected with one of the exceptions of
    [rejection], and only the copy has been made by then. *)
Lemma clean_and_transform_rejects (h : heap) (r : ref) (df : DataFrame) :
  nth_error h r = Some df ->
  transformable df = false ->
  exists e d, clean_and_transform r h = (inl e, h ++ [d]) /\ rejection e = true.
Proof.
  intros Hr Hf.
  destruct (run_block cleaning_steps df) as [[e|] d] eqn:Hb.
  - exists e, d. split.
    + exact (@clean_and_transform_raises h r df d e Hr Hb).
    + exact (@cleaning_steps_raise df d e Hb).
  - destruct (getcol "customer_id" d) as [ids|] eqn:Hi.
    + assert (Ht : transformable df = true).
      { apply (@cleaning_steps_accept df d Hb). congruence. }
      congruence.
    + exists (KeyError "customer_id"), d. split; [|reflexivity].
      exact (@clean_and_transform_no_id h r df d Hr Hb Hi).
Qed.














(* ===================================================================== *)
(** * Further properties of [load_to_silver] *)
(* ===================================================================== *)

Lemma nth_error_update_other {A} (l : list A) (n i : nat) (x : A) :
  i <> n -> nth_error (update n x l) i = nth_error l i.
Proof.
  revert n i. induction l as [|a l IH]; intros [|n] [|i] H; simpl; try reflexivity.
  - contradiction.
  - apply IH. congruence.
Qed.

Lemma update_length {A} (l : list A) (n : nat) (x : A) :
  List.length (update n x l) = List.length l.
Proof.
  revert n. induction l as [|a l IH]; intros [|n]; simpl; auto.
Qed.

(** The heap that [load_to_silver] leaves. *)
Lemma load_to_silver_heap (h : heap) (r : ref) (d : DataFrame) (now : Z) (db : database) :
  nth_error h r = Some d ->
  exists junk, snd (load_to_silver r now db h) = update r (stamped d now) h ++ junk.
Proof.
  intros Hr. unfold load_to_silver.
  unfold bind at 1. unfold inplace, bind at 1, deref at 1. rewrite Hr.
  unfold broadcast at 1. cbv beta iota. fold (stamped d now).
  unfold bind at 1. unfold bind at 1. unfold eval, bind at 1, deref at 1.
  rewrite (nth_error_update _ _ _ Hr).
  destruct (select_columns column_order (stamped d now)) as [e|t].
  - exists []. cbn. now rewrite app_nil_r.
  - unfold ret at 1, alloc. cbv beta iota.
    unfold bind at 1, deref. rewrite nth_error_snoc.
    rewrite to_sql_replace. exists [t]. reflexivity.
Qed.








(** X6: [load_to_silver] writes to the frame it is given: whether it returns
    or raises, the caller's frame has the column ingestion_timestamp
    afterwards, with the time of the call on every row, and no other object
    of the heap is changed.  (The selection [df[column_order]] is a new
    object; the stamp is set before it.) *)
Theorem load_to_silver_stamps_argument (h : heap) (r : ref) (d : DataFrame)
        (now : Z) (db : database) :
  nth_error h r = Some d ->
  nth_error (snd (load_to_silver r now db h)) r = Some (stamped d now)
  /\ getcol "ingestion_timestamp" (stamped d now)
     = Some (repeat (Timestamp now) (Z.to_nat (len d)))
  /\ (forall name, name <> "ingestion_timestamp" ->
        getcol name (stamped d now) = getcol name d)
  /\ (forall i, i <> r -> (i < List.length h)%nat ->
        nth_error (snd (load_to_silver r now db h)) i = nth_error h i).
Proof.
  intros Hr. destruct (@load_to_silver_heap h r d now db Hr) as (junk & ->).
  assert (Hlt : (r < List.length h)%nat) by (apply nth_error_Some; congruence).
  split.
  - rewrite nth_error_app1 by (now rewrite update_length).
    exact (nth_error_update _ _ _ Hr).
  - split; [apply getcol_setitem_same|]. split.
    + intros name N. unfold stamped. apply getcol_setitem_other.
      apply String.eqb_neq. congruence.
    + intros i N Hi. rewrite nth_error_app1 by (now rewrite update_length).
      now apply nth_error_update_other.
Qed.

Lemma load_to_silver_stamps_argument_witness :
  nth_error (snd (load_to_silver 0%nat 1762266000 [] [no_contract])) 0
  = Some (stamped no_contract 1762266000)
  /\ getcol "ingestion_timestamp" no_contract = None.
Proof.
  split.
  - exact (proj1 (@load_to_silver_stamps_argument [no_contract] 0%nat no_contract
                    1762266000 [] eq_refl)).
  - reflexivity.
Defined.



(* ===================================================================== *)
(** * Further properties of [validate_silver_data] *)
(* ===================================================================== *)

Lemma sum_bool_le_length (m : list bool) : sum_bool m <= Z.of_nat (List.length m).
Proof.
  unfold sum_bool. induction m as [|b m IH]; simpl List.length; simpl count_occ; [lia|].
  destruct (bool_dec b true); simpl List.length; lia.
Qed.

Lemma filter_nan_length (c : column) :
  Z.of_nat (List.length (filter (fun x => negb (is_nan x)) c)) + sum_bool (map is_nan c)
  = Z.of_nat (List.length c).
Proof.
  unfold sum_bool. induction c as [|x c IH]; [reflexivity|].
  cbn [filter map count_occ List.length].
  destruct (is_nan x); cbn [negb]; destruct (bool_dec _ true) as [E|E];
    try discriminate E; try (exfalso; apply E; reflexivity);
    cbn [List.length]; lia.
Qed.

Lemma count_distinct_bounds (c : column) :
  0 <= count_distinct c /\ count_distinct c + sum_bool (map is_nan c) <= Z.of_nat (List.length c).
Proof.
  unfold count_distinct. split; [apply sum_bool_nonneg|].
  pose proof (sum_bool_le_length (map negb (duplicated (filter (fun x => negb (is_nan x)) c)))) as H.
  rewrite length_map in H. unfold duplicated in H. rewrite duplicated_from_length in H.
  pose proof (filter_nan_length c). unfold duplicated. lia.
Qed.

Lemma sum_counts_count_group (k : cell) (groups : list (cell * Z)) :
  sum_counts (count_group k groups) = sum_counts groups + 1.
Proof.
  unfold sum_counts. induction groups as [|[k' n] groups IH]; cbn [count_group fold_right snd].
  - lia.
  - destruct (cell_eqb k k'); cbn [fold_right snd]; lia.
Qed.

Lemma sum_counts_insert_group (g : cell * Z) (l : list (cell * Z)) :
  sum_counts (insert_group g l) = snd g + sum_counts l.
Proof.
  unfold sum_counts. induction l as [|g' l IH]; cbn [insert_group fold_right].
  - reflexivity.
  - destruct (sql_leb (fst g) (fst g')); cbn [fold_right]; lia.
Qed.

Lemma sum_counts_sorted (l : list (cell * Z)) :
  sum_counts (fold_right insert_group [] l) = sum_counts l.
Proof.
  induction l as [|g l IH]; [reflexivity|].
  cbn [fold_right]. rewrite sum_counts_insert_group, IH. reflexivity.
Qed.

Lemma sum_counts_grouped (c : column) (acc : list (cell * Z)) :
  sum_counts (fold_left (fun acc k => count_group k acc) c acc)
  = sum_counts acc + Z.of_nat (List.length c).
Proof.
  revert acc. induction c as [|k c IH]; intros acc; cbn [fold_left List.length].
  - lia.
  - rewrite IH, sum_counts_count_group. lia.
Qed.

Lemma sum_counts_group_count (c : column) :
  sum_counts (group_count c) = Z.of_nat (List.length c).
Proof.
  unfold group_count. rewrite sum_counts_sorted, sum_counts_grouped. reflexivity.
Qed.

Lemma count_group_keys (k : cell) (groups : list (cell * Z)) (x : cell) :
  In x (map fst (count_group k groups)) <-> x = k \/ In x (map fst groups).
Proof.
  induction groups as [|[k' n] groups IH]; cbn [count_group map fst In].
  - intuition.
  - destruct (cell_eqb k k') eqn:E; cbn [map fst In].
    + apply cell_eqb_eq in E. subst k'. intuition.
    + rewrite IH. intuition.
Qed.

Lemma count_group_nodup (k : cell) (groups : list (cell * Z)) :
  NoDup (map fst groups) -> NoDup (map fst (count_group k groups)).
Proof.
  induction groups as [|[k' n] groups IH]; cbn [count_group map fst]; intros H.
  - constructor; [intros [] | constructor].
  - destruct (cell_eqb k k') eqn:E; cbn [map fst]; [exact H|].
    inversion H as [|? ? Hn Hr]; subst. constructor; [|exact (IH Hr)].
    rewrite count_group_keys. intros [-> | Hin]; [|contradiction].
    rewrite cell_eqb_refl in E. discriminate.
Qed.

Lemma count_group_positive (k : cell) (groups : list (cell * Z)) :
  Forall (fun g => 1 <= snd g) groups ->
  Forall (fun g => 1 <= snd g) (count_group k groups).
Proof.
  induction groups as [|[k' n] groups IH]; cbn [count_group]; intros H.
  - constructor; [cbn; lia | constructor].
  - inversion H as [|? ? Hn Hr]; subst. cbn in Hn.
    destruct (cell_eqb k k'); constructor; cbn; try lia; auto.
Qed.

Lemma grouped_invariant (c : column) (acc : list (cell * Z)) :
  NoDup (map fst acc) -> Forall (fun g => 1 <= snd g) acc ->
  let groups := fold_left (fun acc k => count_group k acc) c acc in
  NoDup (map fst groups) /\ Forall (fun g => 1 <= snd g) groups
  /\ forall x, In x (map fst groups) <-> In x c \/ In x (map fst acc).
Proof.
  revert acc. induction c as [|k c IH]; intros acc Hn Hp; cbn [fold_left].
  - split; [exact Hn|]. split; [exact Hp|]. intros x. cbn. tauto.
  - destruct (IH (count_group k acc) (@count_group_nodup k acc Hn) (@count_group_positive k acc Hp))
      as (H1 & H2 & H3).
    split; [exact H1|]. split; [exact H2|].
    intros x. rewrite H3, count_group_keys. cbn [In]. intuition.
Qed.

Lemma insert_group_keys (g : cell * Z) (l : list (cell * Z)) (x : cell * Z) :
  In x (insert_group g l) <-> x = g \/ In x l.
Proof.
  induction l as [|g' l IH]; cbn [insert_group In].
  - intuition.
  - destruct (sql_leb (fst g) (fst g')); cbn [In]; [intuition|].
    rewrite IH. intuition.
Qed.

Lemma insert_group_nodup (g : cell * Z) (l : list (cell * Z)) :
  ~ In (fst g) (map fst l) -> NoDup (map fst l) -> NoDup (map fst (insert_group g l)).
Proof.
  induction l as [|g' l IH]; cbn [insert_group map]; intros Hg Hl.
  - constructor; [intros [] | constructor].
  - destruct (sql_leb (fst g) (fst g')); cbn [map].
    + constructor; assumption.
    + inversion Hl as [|? ? Hn Hr]; subst. constructor.
      * intros Hin. apply in_map_iff in Hin. destruct Hin as (y & Hy & Hin).
        apply insert_group_keys in Hin. destruct Hin as [-> | Hin].
        -- apply Hg. cbn [In]. now left.
        -- apply Hn. rewrite <- Hy. now apply in_map.
      * apply IH; [|exact Hr]. intros Hin. apply Hg. cbn [In]. now right.
Qed.

Lemma sorted_groups (l : list (cell * Z)) :
  NoDup (map fst l) ->
  NoDup (map fst (fold_right insert_group [] l))
  /\ forall x, In x (fold_right insert_group [] l) <-> In x l.
Proof.
  induction l as [|g l IH]; cbn [fold_right map]; intros H.
  - split; [constructor | tauto].
  - inversion H as [|? ? Hn Hr]; subst. destruct (IH Hr) as [H1 H2]. split.
    + apply insert_group_nodup; [|exact H1].
      intros Hin. apply Hn. apply in_map_iff in Hin. destruct Hin as (y & Hy & Hin).
      rewrite <- Hy. apply in_map. now apply H2.
    + intros x. rewrite insert_group_keys, H2. cbn [In]. intuition.
Qed.

Lemma group_count_groups (c : column) :
  NoDup (map fst (group_count c))
  /\ Forall (fun g => 1 <= snd g) (group_count c)
  /\ forall x, In x (map fst (group_count c)) <-> In x c.
Proof.
  destruct (@grouped_invariant c [] (NoDup_nil _) (Forall_nil _)) as (H1 & H2 & H3).
  unfold group_count.
  destruct (@sorted_groups _ H1) as [S1 S2].
  split; [exact S1|]. split.
  - apply Forall_forall. intros x Hx. apply S2 in Hx.
    rewrite Forall_forall in H2. now apply H2.
  - intros x. specialize (H3 x). cbn [map In] in H3. split.
    + intros Hin. apply in_map_iff in Hin. destruct Hin as (y & <- & Hy).
      apply S2 in Hy. apply (in_map fst) in Hy. apply H3 in Hy.
      destruct Hy as [Hy | []]. exact Hy.
    + intros Hin. assert (Hk : In x c \/ False) by now left.
      apply H3 in Hk. apply in_map_iff in Hk. destruct Hk as (y & <- & Hy).
      apply in_map. now apply S2.
Qed.

(** What [validate_silver_data] returns, when it returns. *)
Lemma validate_silver_data_inv (db : database) (v : ValidationResults) :
  validate_silver_data db = inr v ->
  exists t ids churned segments,
    get_table "silver.customers_staging" db = Some t
    /\ getcol "customer_id" t = Some ids
    /\ getcol "churned" t = Some churned
    /\ getcol "customer_segment" t = Some segments
    /\ len t <> 0
    /\ v = {| total_records := len t;
              unique_customers := count_distinct ids;
              churned_count := count_true churned;
              null_check := sum_bool (map is_nan ids);
              segment_distribution := group_count segments |}.
Proof.
  unfold validate_silver_data, query.
  destruct (get_table "silver.customers_staging" db) as [t|] eqn:Ht; cbn [ebind]; [|discriminate].
  destruct (getcol "customer_id" t) as [ids|] eqn:Hi; cbn [ebind]; [|discriminate].
  destruct (getcol "churned" t) as [churned|] eqn:Hc; cbn [ebind]; [|discriminate].
  destruct (getcol "customer_segment" t) as [segments|] eqn:Hs; cbn [ebind]; [|discriminate].
  destruct (len t =? 0)%Z eqn:E; [discriminate|].
  intros [= <-]. apply Z.eqb_neq in E.
  exists t, ids, churned, segments.
  split; [reflexivity|]. split; [exact Hi|]. split; [exact Hc|].
  split; [exact Hs|]. split; [exact E | reflexivity].
Qed.

(** X8: the figures that [validate_silver_data] returns for a staging table
    whose columns all have one length fit together: the record count is the
    number of rows and is positive, the churned customers and the missing
    ids are among the records, the ids counted as distinct are not missing,
    the segment counts add up to the record count, and every segment of
    the table is listed once, with a count of at least one. *)
Theorem validation_figures_consistent (db : database) (t : DataFrame)
        (v : ValidationResults) :
  get_table "silver.customers_staging" db = Some t ->
  rectangular t = true ->
  validate_silver_data db = inr v ->
  total_records v = len t
  /\ 0 < total_records v
  /\ 0 <= churned_count v <= total_records v
  /\ 0 <= null_check v
  /\ 0 <= unique_customers v
  /\ unique_customers v + null_check v <= total_records v
  /\ sum_counts (segment_distribution v) = total_records v
  /\ NoDup (map fst (segment_distribution v))
  /\ Forall (fun g => 1 <= snd g) (segment_distribution v)
  /\ (forall x, In x (map fst (segment_distribution v))
                <-> In x (col_of "customer_segment" t)).
Proof.
  intros Ht Hrect Hv.
  destruct (@validate_silver_data_inv db v Hv)
    as (t' & ids & churned & segments & Ht' & Hi & Hc & Hs & Hn & ->).
  rewrite Ht in Ht'. injection Ht' as <-.
  pose proof (rectangular_all_length t Hrect) as Hlen.
  pose proof (getcol_length _ Hlen Hi) as Li.
  pose proof (getcol_length _ Hlen Hc) as Lc.
  pose proof (getcol_length _ Hlen Hs) as Ls.
  assert (Hpos : 0 <= len t).
  { destruct t as [|[k c] t]; cbn; lia. }
  assert (Hz : Z.of_nat (Z.to_nat (len t)) = len t) by (apply Z2Nat.id; exact Hpos).
  cbn [total_records unique_customers churned_count null_check segment_distribution].
  split; [reflexivity|]. split; [lia|]. split.
  - unfold count_true. split; [apply sum_bool_nonneg|].
    pose proof (sum_bool_le_length
                  (map (fun x => match x with Bool true => true | _ => false end) churned)) as H.
    rewrite length_map in H. lia.
  - split; [apply sum_bool_nonneg|].
    destruct (count_distinct_bounds ids) as [H0 H1].
    split; [exact H0|]. split; [lia|].
    split; [rewrite sum_counts_group_count; lia|].
    destruct (group_count_groups segments) as (G1 & G2 & G3).
    split; [exact G1|]. split; [exact G2|].
    unfold col_of. rewrite Hs. exact G3.
Qed.

Lemma validation_figures_consistent_witness :
  total_records (results_of first_run) = 2
  /\ sum_counts (segment_distribution (results_of first_run)) = 2.
Proof.
  destruct (@validation_figures_consistent (snd first_run) (staging_of (snd first_run))
              (results_of first_run) eq_refl eq_refl eq_refl)
    as (H1 & _ & _ & _ & _ & _ & H2 & _).
  split; [exact H1|].
  rewrite H2. exact H1.
Defined.

(** X9: [validate_silver_data] returns exactly when the staging table
    exists, has the columns customer_id, churned and customer_segment, and
    holds at least one row.  On a table without rows the queries succeed and
    the churn rate of the log line divides by zero: the call raises
    ZeroDivisionError.  Without the table it raises the driver's error. *)
Theorem validation_requires_rows (db : database) :
  ((exists v, validate_silver_data db = inr v)
   <-> exists t, get_table "silver.customers_staging" db = Some t
                 /\ forallb (has_column t) ["customer_id"; "churned"; "customer_segment"] = true
                 /\ len t <> 0)
  /\ (forall t, get_table "silver.customers_staging" db = Some t ->
        forallb (has_column t) ["customer_id"; "churned"; "customer_segment"] = true ->
        len t = 0 ->
        validate_silver_data db = inl ZeroDivisionError)
  /\ (get_table "silver.customers_staging" db = None ->
      validate_silver_data db
      = inl (DBError "relation silver.customers_staging does not exist")).
Proof.
  assert (Hcols : forall t,
             forallb (has_column t) ["customer_id"; "churned"; "customer_segment"] = true ->
             exists ids churned segments,
               getcol "customer_id" t = Some ids /\ getcol "churned" t = Some churned
               /\ getcol "customer_segment" t = Some segments).
  { intros t H. cbn [forallb] in H. unfold has_column in H.
    destruct (getcol "customer_id" t) as [a|]; [|discriminate].
    destruct (getcol "churned" t) as [b|]; [|discriminate].
    destruct (getcol "customer_segment" t) as [c|]; [|discriminate].
    exists a, b, c. repeat split. }
  split; [split|split].
  - intros (v & Hv).
    destruct (@validate_silver_data_inv db v Hv)
      as (t & ids & churned & segments & Ht & Hi & Hc & Hs & Hn & _).
    exists t. split; [exact Ht|]. split; [|exact Hn].
    cbn [forallb]. unfold has_column. now rewrite Hi, Hc, Hs.
  - intros (t & Ht & Hc & Hn). destruct (Hcols t Hc) as (a & b & c & Ha & Hb & Hs).
    unfold validate_silver_data, query. rewrite Ht. cbn [ebind]. rewrite Ha, Hb, Hs.
    cbn [ebind]. apply Z.eqb_neq in Hn. rewrite Hn. eauto.
  - intros t Ht Hc Hn. destruct (Hcols t Hc) as (a & b & c & Ha & Hb & Hs).
    unfold validate_silver_data, query. rewrite Ht. cbn [ebind]. rewrite Ha, Hb, Hs.
    cbn [ebind]. rewrite Hn. reflexivity.
  - intros Ht. unfold validate_silver_data. rewrite Ht. reflexivity.
Qed.

Lemma validation_requires_rows_witness :
  validate_silver_data empty_staging = inl ZeroDivisionError
  /\ validate_silver_data []
     = inl (DBError "relation silver.customers_staging does not exist").
Proof.
  split.
  - exact (proj1 (proj2 (validation_requires_rows empty_staging))
             (staging_of empty_staging) eq_refl eq_refl eq_refl).
  - exact (proj2 (proj2 (validation_requires_rows [])) eq_refl).
Defined.

(* ===================================================================== *)
(** * Further properties of [main] *)
(* ===================================================================== *)









Lemma cell_key_nan (x : cell) : cell_key x = NaN -> x = NaN.
Proof. destruct x; cbn; congruence. Qed.















(* ===================================================================== *)
(** * Further properties of [build_gold_models] *)
(* ===================================================================== *)

Lemma split_nonempty (sep : ascii) (s : string) : PyStr.split sep s <> [].
Proof.
  destruct s as [|c s]; cbn [PyStr.split]; [discriminate|].
  destruct (Ascii.eqb c sep); [discriminate|].
  destruct (PyStr.split sep s); discriminate.
Qed.

(** A separator ends the last piece of what stands before it. *)
Lemma split_app (sep : ascii) (a b : string) :
  PyStr.split sep (a ++ String sep b) = PyStr.split sep a ++ PyStr.split sep b.
Proof.
  induction a as [|c a IH]; cbn [String.append PyStr.split].
  - now rewrite Ascii.eqb_refl.
  - destruct (Ascii.eqb c sep); [now rewrite IH|].
    rewrite IH. pose proof (split_nonempty sep a) as N.
    destruct (PyStr.split sep a); [contradiction | reflexivity].
Qed.

Lemma statements_of_app (a b : string) :
  statements_of (a ++ ";" ++ b) = statements_of a ++ statements_of b.
Proof.
  unfold statements_of. cbn [String.append].
  now rewrite split_app, filter_app, map_app.
Qed.

Lemma run_statements_app (execute : string -> database -> result database)
      (a b : list string) (db : database) :
  run_statements execute (a ++ b) db
  = match run_statements execute a db with
    | (inr _, db') => run_statements execute b db'
    | (inl e, db') => (inl e, db')
    end.
Proof.
  revert db. induction a as [|s a IH]; intros db; cbn [app run_statements].
  - reflexivity.
  - destruct (String.eqb s "" || PyStr.startswith "--" s); [apply IH|].
    destruct (execute s db) as [e|db']; [|apply IH].
    destruct (expected_error e); [apply IH | reflexivity].
Qed.

Lemma split_one (sep : ascii) (s : string) :
  PyStr.contains (String sep "") s = false -> PyStr.split sep s = [s].
Proof.
  induction s as [|c s IH]; cbn [PyStr.split PyStr.contains PyStr.startswith]; [reflexivity|].
  rewrite andb_true_r, (Ascii.eqb_sym sep c).
  destruct (Ascii.eqb c sep); cbn [orb]; [discriminate|].
  intros H. destruct s; cbn [PyStr.startswith] in H; rewrite (IH H); reflexivity.
Qed.

Lemma rstrip_keeps_head (c : ascii) (s : string) :
  PyStr.is_space c = false -> PyStr.rstrip (String c s) = String c (PyStr.rstrip s).
Proof.
  intros H. cbn [PyStr.rstrip]. destruct (PyStr.rstrip s); [now rewrite H | reflexivity].
Qed.

Lemma strip_comment (s : string) :
  PyStr.startswith "--" (PyStr.lstrip s) = true ->
  PyStr.startswith "--" (PyStr.strip s) = true.
Proof.
  unfold PyStr.strip. destruct (PyStr.lstrip s) as [|a [|b t]]; cbn [PyStr.startswith];
    intros H; try discriminate H.
  - rewrite andb_false_r in H. discriminate H.
  - apply andb_true_iff in H. destruct H as [Ha H].
    apply andb_true_iff in H. destruct H as [Hb _].
    apply Ascii.eqb_eq in Ha. apply Ascii.eqb_eq in Hb. subst a b.
    rewrite !rstrip_keeps_head by reflexivity. reflexivity.
Qed.

(** X14: a script is run piece by piece.  Running the text [a;b] is running
    [a] and then, unless a statement of [a] failed with an error that is not
    expected, running [b] on the store that [a] left.  A fatal error stops
    the run: no statement of [b] is executed, and what the statements before
    the failing one did stays in the store (each statement is its own
    transaction). *)
Theorem gold_script_runs_in_sequence (execute : string -> database -> result database)
        (a b : string) (db : database) :
  statements_of (a ++ ";" ++ b) = statements_of a ++ statements_of b
  /\ build_gold_models execute (a ++ ";" ++ b) db
     = match build_gold_models execute a db with
       | (inr _, db') => build_gold_models execute b db'
       | (inl e, db') => (inl e, db')
       end.
Proof.
  split; [apply statements_of_app|].
  unfold build_gold_models. rewrite statements_of_app. apply run_statements_app.
Qed.

(** X15: a statement that begins with a comment line is skipped as a whole.
    When a piece of the script, once leading white space is removed, starts
    with two dashes, nothing of it is executed, whatever SQL follows the
    comment line: the run is the run of the rest of the script. *)
Theorem comment_line_hides_statement (execute : string -> database -> result database)
        (piece rest : string) (db : database) :
  PyStr.contains ";" piece = false ->
  PyStr.startswith "--" (PyStr.lstrip piece) = true ->
  build_gold_models execute (piece ++ ";" ++ rest) db
  = build_gold_models execute rest db.
Proof.
  intros Hs Hc. unfold build_gold_models. rewrite statements_of_app, run_statements_app.
  unfold statements_of at 1. rewrite (split_one ";" piece Hs). cbn [filter map].
  destruct (String.eqb (PyStr.strip piece) ""); cbn [negb map run_statements];
    [reflexivity|].
  rewrite (strip_comment piece Hc), orb_true_r. reflexivity.
Qed.

Lemma comment_line_hides_statement_witness :
  build_gold_models records_statement
    (commented_statement ++ ";" ++ "CREATE TABLE gold.revenue_analysis AS SELECT 2") []
  = (inr tt, [("CREATE TABLE gold.revenue_analysis AS SELECT 2", [])]).
Proof.
  rewrite (@comment_line_hides_statement records_statement commented_statement
             "CREATE TABLE gold.revenue_analysis AS SELECT 2" [] eq_refl eq_refl).
  reflexivity.
Defined.

(** X16: the run reports success without having changed anything when every
    statement is a comment or fails with an expected error: the store is the
    one the run started from. *)
Theorem gold_run_can_succeed_idle (execute : string -> database -> result database)
        (sql_script : string) (db : database) :
  (forall s, In s (statements_of sql_script) ->
     PyStr.startswith "--" s = true
     \/ exists e, execute s db = inl e /\ expected_error e = true) ->
  build_gold_models execute sql_script db = (inr tt, db).
Proof.
  unfold build_gold_models. induction (statements_of sql_script) as [|s l IH];
    intros H; cbn [run_statements]; [reflexivity|].
  assert (Hl : run_statements execute l db = (inr tt, db)).
  { apply IH. intros x Hx. apply H. now right. }
  destruct (String.eqb s "" || PyStr.startswith "--" s) eqn:E; [exact Hl|].
  destruct (H s (or_introl eq_refl)) as [Hc | (e & He & Hx)].
  - rewrite Hc, orb_true_r in E. discriminate.
  - rewrite He, Hx. exact Hl.
Qed.

Lemma gold_run_can_succeed_idle_witness :
  build_gold_models (always_fails (DBError "relation silver.customers_staging does not exist"))
    "CREATE TABLE gold.churn_summary AS SELECT * FROM silver.customers_staging; -- done" []
  = (inr tt, []).
Proof.
  apply gold_run_can_succeed_idle.
  intros s Hs. cbn in Hs. destruct Hs as [<- | [<- | []]].
  - right. eexists. split; reflexivity.
  - left. reflexivity.
Defined.

Lemma contains_char (x c : ascii) (s : string) :
  PyStr.contains (String x "") (String c s)
  = Ascii.eqb x c || PyStr.contains (String x "") s.
Proof.
  cbn [PyStr.contains PyStr.startswith]. destruct s; now rewrite andb_true_r.
Qed.

Lemma split_pieces (sep : ascii) (s p : string) :
  In p (PyStr.split sep s) -> PyStr.contains (String sep "") p = false.
Proof.
  revert p. induction s as [|c s IH]; intros p; cbn [PyStr.split].
  - intros [<- | []]. reflexivity.
  - destruct (Ascii.eqb c sep) eqn:E.
    + intros [<- | H]; [reflexivity | now apply IH].
    + destruct (PyStr.split sep s) as [|q qs]; cbn [In].
      * intros [<- | []]. rewrite contains_char, (Ascii.eqb_sym sep c), E. reflexivity.
      * intros [<- | H].
        -- rewrite contains_char, (Ascii.eqb_sym sep c), E. apply IH. now left.
        -- apply IH. now right.
Qed.

Lemma lstrip_contains (x : ascii) (s : string) :
  PyStr.contains (String x "") s = false ->
  PyStr.contains (String x "") (PyStr.lstrip s) = false.
Proof.
  induction s as [|c s IH]; [auto|]. intros H. cbn [PyStr.lstrip].
  destruct (PyStr.is_space c); [|exact H].
  rewrite contains_char in H. apply orb_false_iff in H. now apply IH.
Qed.

Lemma rstrip_contains (x : ascii) (s : string) :
  PyStr.contains (String x "") s = false ->
  PyStr.contains (String x "") (PyStr.rstrip s) = false.
Proof.
  induction s as [|c s IH]; [auto|]. intros H.
  rewrite contains_char in H. apply orb_false_iff in H. destruct H as [Hc Hs].
  specialize (IH Hs). cbn [PyStr.rstrip].
  destruct (PyStr.rstrip s) as [|d r].
  - destruct (PyStr.is_space c); [reflexivity|]. now rewrite contains_char, Hc.
  - now rewrite contains_char, Hc.
Qed.

Lemma rstrip_idempotent (s : string) : PyStr.rstrip (PyStr.rstrip s) = PyStr.rstrip s.
Proof.
  induction s as [|c s IH]; [reflexivity|]. cbn [PyStr.rstrip].
  destruct (PyStr.rstrip s) as [|d r] eqn:E.
  - destruct (PyStr.is_space c) eqn:Hc; [reflexivity|]. cbn [PyStr.rstrip]. now rewrite Hc.
  - change (PyStr.rstrip (String c (String d r)))
      with (match PyStr.rstrip (String d r) with
            | EmptyString => if PyStr.is_space c then EmptyString else String c EmptyString
            | x => String c x
            end).
    rewrite IH. reflexivity.
Qed.

Lemma lstrip_head (s : string) :
  PyStr.lstrip s = "" \/ exists c t, PyStr.lstrip s = String c t /\ PyStr.is_space c = false.
Proof.
  induction s as [|c s IH]; [now left|]. cbn [PyStr.lstrip].
  destruct (PyStr.is_space c) eqn:E; [exact IH|]. right. eauto.
Qed.

Lemma strip_idempotent (s : string) : PyStr.strip (PyStr.strip s) = PyStr.strip s.
Proof.
  unfold PyStr.strip. destruct (lstrip_head s) as [-> | (c & t & -> & Hc)]; [reflexivity|].
  rewrite (@rstrip_keeps_head c t Hc). cbn [PyStr.lstrip]. rewrite Hc.
  rewrite <- (@rstrip_keeps_head c t Hc). apply rstrip_idempotent.
Qed.

(** X17: every statement that [build_gold_models] hands to its loop is a
    piece of the script between two semicolons with the white space around
    it removed: it is not empty, has no white space at either end and holds
    no semicolon.  The test for an empty statement in the loop therefore
    never holds, and a statement is skipped only when it starts with two
    dashes. *)
Theorem statements_are_trimmed_pieces (sql_script statement : string) :
  In statement (statements_of sql_script) ->
  statement <> ""
  /\ PyStr.strip statement = statement
  /\ PyStr.contains ";" statement = false
  /\ (exists piece, In piece (PyStr.split ";" sql_script)
                    /\ statement = PyStr.strip piece)
  /\ String.eqb statement "" || PyStr.startswith "--" statement
     = PyStr.startswith "--" statement.
Proof.
  unfold statements_of. intros H. apply in_map_iff in H.
  destruct H as (piece & <- & H). apply filter_In in H. destruct H as [Hin Hne].
  apply negb_true_iff in Hne.
  split; [intros E; rewrite E in Hne; discriminate|].
  split; [apply strip_idempotent|]. split.
  - unfold PyStr.strip. apply rstrip_contains, lstrip_contains.
    exact (@split_pieces ";"%char sql_script piece Hin).
  - split; [eauto|]. now rewrite Hne.
Qed.

Lemma statements_are_trimmed_pieces_witness :
  PyStr.strip "CREATE SCHEMA gold" = "CREATE SCHEMA gold"
  /\ statements_of "  CREATE SCHEMA gold ;  ; " = ["CREATE SCHEMA gold"].
Proof.
  split; [|reflexivity].
  exact (proj1 (proj2 (@statements_are_trimmed_pieces "  CREATE SCHEMA gold ;  ; "
                         "CREATE SCHEMA gold" (or_introl eq_refl)))).
Defined.

(* ===================================================================== *)
(** * [generate_insights] *)
(* ===================================================================== *)

Lemma format_number_numeric (spec : string) (v : value) :
  format_number spec v = inr tt <-> numeric v = true.
Proof.
  destruct v; cbn; try tauto.
  - destruct (String.eqb spec ","); split; discriminate.
  - split; discriminate.
Qed.

Lemma format_number_inv (spec : string) (v : value) (u : unit) :
  format_number spec v = inr u -> numeric v = true.
Proof. destruct u. apply format_number_numeric. Qed.

Lemma greater_numeric (a b : value) :
  numeric a = true -> numeric b = true ->
  greater a b
  = inr match finite a, finite b with
        | Some x, Some y => Qltb y x
        | _, _ => false
        end.
Proof.
  destruct a, b; cbn; try discriminate; reflexivity.
Qed.

Lemma Qltb_lt (x y : Q) : Qltb x y = true <-> (x < y)%Q.
Proof.
  unfold Qltb. rewrite negb_true_iff. split.
  - intros H. apply Qnot_le_lt. intros L. apply Qle_bool_iff in L. congruence.
  - intros H. destruct (Qle_bool y x) eqn:E; [|reflexivity].
    apply Qle_bool_iff in E. exfalso. exact (Qlt_not_le _ _ H E).
Qed.

Lemma Qltb_irrefl (x : Q) : Qltb x x = false.
Proof.
  destruct (Qltb x x) eqn:E; [|reflexivity].
  apply Qltb_lt in E. exfalso. exact (Qlt_irrefl _ E).
Qed.

Lemma improves_not_greater (a b : value) :
  numeric a = true -> numeric b = true -> improves a b -> greater a b = inr false.
Proof.
  intros Ha Hb [-> | (x & y & Hx & Hy & L)]; rewrite greater_numeric by assumption.
  - destruct (finite a); [now rewrite Qltb_irrefl | reflexivity].
  - rewrite Hx, Hy. f_equal. destruct (Qltb y x) eqn:E; [|reflexivity].
    apply Qltb_lt in E. exfalso. exact (Qlt_irrefl _ (Qlt_trans _ _ _ L E)).
Qed.

Lemma max_from_spec (name : string) (rows : list row) :
  Forall (numeric_key name) rows ->
  forall best bk,
    numeric bk = true ->
    exists m k,
      max_from name best bk rows = inr m
      /\ numeric k = true
      /\ improves bk k
      /\ ((m = best /\ k = bk) \/ (In m rows /\ item m name = inr k))
      /\ forall x kx, In x rows -> item x name = inr kx -> greater kx k = inr false.
Proof.
  induction 1 as [|r rows (kr & Hr & Nr) _ IH]; intros best bk Nb.
  - exists best, bk. cbn [max_from]. split; [reflexivity|]. split; [exact Nb|].
    split; [now left|]. split; [now left|]. intros x kx [].
  - cbn [max_from]. rewrite Hr. cbn [ebind]. rewrite (@greater_numeric kr bk Nr Nb). cbn [ebind].
    destruct (finite kr) as [qr|] eqn:Fr; [destruct (finite bk) as [qb|] eqn:Fb|].
    + destruct (Qltb qb qr) eqn:E.
      * destruct (IH r kr Nr) as (m & k & Hm & Nk & Hi & Hin & Hall).
        exists m, k. split; [exact Hm|]. split; [exact Nk|]. split.
        { right. apply Qltb_lt in E. destruct Hi as [-> | (x & y & Hx & Hy & L)].
          - exists qb, qr. auto.
          - rewrite Fr in Hx. injection Hx as <-. exists qb, y.
            split; [exact Fb|]. split; [exact Hy|]. exact (Qlt_trans _ _ _ E L). }
        split.
        { right. destruct Hin as [[-> ->] | [Hin Hk]]; [split; [now left | exact Hr]|].
          split; [now right | exact Hk]. }
        intros x kx [<- | Hx] Hkx; [|exact (Hall x kx Hx Hkx)].
        rewrite Hr in Hkx. injection Hkx as <-.
        now apply improves_not_greater.
      * destruct (IH best bk Nb) as (m & k & Hm & Nk & Hi & Hin & Hall).
        exists m, k. split; [exact Hm|]. split; [exact Nk|]. split; [exact Hi|]. split.
        { destruct Hin as [H | [Hin Hk]]; [now left|]. right. split; [now right | exact Hk]. }
        intros x kx [<- | Hx] Hkx; [|exact (Hall x kx Hx Hkx)].
        rewrite Hr in Hkx. injection Hkx as <-.
        rewrite (@greater_numeric kr k Nr Nk), Fr.
        destruct Hi as [-> | (x & y & Hx & Hy & L)].
        -- now rewrite Fb, E.
        -- rewrite Hy. f_equal. destruct (Qltb y qr) eqn:E2; [|reflexivity].
           apply Qltb_lt in E2. rewrite Fb in Hx. injection Hx as <-.
           assert (L2 : (qb < qr)%Q) by exact (Qlt_trans _ _ _ L E2).
           apply Qltb_lt in L2. congruence.
    + destruct (IH best bk Nb) as (m & k & Hm & Nk & Hi & Hin & Hall).
      exists m, k. split; [exact Hm|]. split; [exact Nk|]. split; [exact Hi|]. split.
      { destruct Hin as [H | [Hin Hk]]; [now left|]. right. split; [now right | exact Hk]. }
      intros x kx [<- | Hx] Hkx; [|exact (Hall x kx Hx Hkx)].
      rewrite Hr in Hkx. injection Hkx as <-.
      destruct Hi as [-> | (x & y & Hx & _)]; [|congruence].
      rewrite (@greater_numeric kr bk Nr Nb), Fr, Fb. reflexivity.
    + destruct (IH best bk Nb) as (m & k & Hm & Nk & Hi & Hin & Hall).
      exists m, k. split; [exact Hm|]. split; [exact Nk|]. split; [exact Hi|]. split.
      { destruct Hin as [H | [Hin Hk]]; [now left|]. right. split; [now right | exact Hk]. }
      intros x kx [<- | Hx] Hkx; [|exact (Hall x kx Hx Hkx)].
      rewrite Hr in Hkx. injection Hkx as <-.
      rewrite (@greater_numeric kr k Nr Nk), Fr. reflexivity.
Qed.

Lemma max_by_spec (name : string) (rows : list row) :
  rows <> [] ->
  Forall (numeric_key name) rows ->
  exists m k,
    max_by name rows = inr m
    /\ In m rows
    /\ item m name = inr k
    /\ forall x kx, In x rows -> item x name = inr kx -> greater kx k = inr false.
Proof.
  destruct rows as [|r rows]; [congruence|]. intros _ H.
  inversion H as [|? ? (kr & Hr & Nr) Hrest]; subst.
  cbn [max_by]. rewrite Hr. cbn [ebind].
  destruct (@max_from_spec name rows Hrest r kr Nr) as (m & k & Hm & Nk & Hi & Hin & Hall).
  exists m, k. split; [exact Hm|]. split.
  { destruct Hin as [[-> _] | [Hin _]]; [now left | now right]. }
  split.
  { destruct Hin as [[-> ->] | [_ Hk]]; assumption. }
  intros x kx [<- | Hx] Hkx; [|exact (Hall x kx Hx Hkx)].
  rewrite Hr in Hkx. injection Hkx as <-. now apply improves_not_greater.
Qed.

Lemma log_segments_keys (segments : list row) (u : unit) :
  log_segments segments = inr u -> Forall (numeric_key "churn_rate_percent") segments.
Proof.
  induction segments as [|s l IH]; cbn [log_segments]; intros H; [constructor|].
  destruct (log_segment s) as [e|u'] eqn:E; cbn [ebind] in H; [discriminate|].
  constructor; [|exact (IH H)].
  unfold log_segment in E.
  destruct (item s "customer_segment"); cbn [ebind] in E; [discriminate|].
  destruct (item s "total_customers"); cbn [ebind] in E; [discriminate|].
  destruct (format_number "," v0); cbn [ebind] in E; [discriminate|].
  destruct (item s "churn_rate_percent") as [e|k] eqn:K; cbn [ebind] in E; [discriminate|].
  destruct (format_number ".2f" k) as [e|u''] eqn:F; cbn [ebind] in E; [discriminate|].
  exists k. split; [exact K|]. exact (@format_number_inv _ _ _ F).
Qed.

Ltac raise_or_step :=
  match goal with
  | |- exists e, ebind ?m ?k = inl e =>
      lazymatch m with
      | max_by _ _ => fail
      | _ => destruct m; cbn [ebind]; [eexists; reflexivity|]
      end
  end.

Lemma generate_insights_raises (results : Results) (revenue : value) :
  churn_summary results = []
  \/ (item (executive_summary results) "total_monthly_revenue" = inr revenue
      /\ is_zero revenue = true) ->
  exists e, generate_insights results = inl e.
Proof.
  intros [Hempty | [Hrev Hz]]; unfold generate_insights.
  - rewrite Hempty. repeat raise_or_step. cbn [max_by ebind]. eexists. reflexivity.
  - rewrite !Hrev. cbn [ebind].
    do 2 raise_or_step. do 2 raise_or_step.
    destruct (format_number ",.2f" revenue) as [e|ur] eqn:Fr; cbn [ebind];
      [eexists; reflexivity|].
    destruct (item (executive_summary results) "at_risk_revenue") as [e|a];
      cbn [ebind]; [eexists; reflexivity|].
    destruct (format_number ",.2f" a) as [e|ua] eqn:Fa; cbn [ebind];
      [eexists; reflexivity|].
    raise_or_step.
    apply format_number_inv in Fr. apply format_number_inv in Fa.
    unfold is_zero in Hz.
    assert (Hd : true_divide a revenue = inl ZeroDivisionError).
    { destruct a, revenue; try discriminate; cbn in Hz |- *; now rewrite Hz. }
    rewrite Hd. cbn. eexists. reflexivity.
Qed.

(** X18: [generate_insights] cannot complete on results without segments or
    without revenue.  When the list churn_summary is empty, [max] has
    nothing to choose from; when the total monthly revenue is the number
    zero, the share of the revenue at risk divides by zero.  In both cases
    the function raises, whatever the other entries hold. *)
Theorem insights_need_segments_and_revenue (results : Results) (revenue : value) :
  churn_summary results = []
  \/ (item (executive_summary results) "total_monthly_revenue" = inr revenue
      /\ is_zero revenue = true) ->
  exists e, generate_insights results = inl e.
Proof. exact (@generate_insights_raises results revenue). Qed.

Lemma insights_need_segments_and_revenue_witness :
  (exists e, generate_insights empty_results = inl e)
  /\ (exists e, generate_insights no_revenue_results = inl e).
Proof.
  split.
  - exact (@insights_need_segments_and_revenue empty_results VNan (or_introl eq_refl)).
  - exact (@insights_need_segments_and_revenue no_revenue_results (VFloat 0)
             (or_intror (conj eq_refl eq_refl))).
Defined.

Ltac step_in H E :=
  match type of H with
  | ebind ?m ?k = inr _ => destruct m eqn:E; cbn [ebind] in H; [discriminate H|]
  end.

(** X19: when [generate_insights] completes, the segment it names as the
    priority is a row of churn_summary, and no row of churn_summary has a
    churn rate greater than its own; every churn rate in the list is a
    number.  The revenue segment it names is the first row of
    revenue_analysis_top10, if there is one.  The total monthly revenue is
    not zero, and the share at risk is the revenue at risk divided by the
    total, times 100. *)
Theorem insights_name_the_top_segment (results : Results) (i : Insights) :
  generate_insights results = inr i ->
  In (highest_churn_segment i) (churn_summary results)
  /\ (exists k,
        item (highest_churn_segment i) "churn_rate_percent" = inr k
        /\ forall x kx, In x (churn_summary results) ->
                        item x "churn_rate_percent" = inr kx ->
                        greater kx k = inr false)
  /\ Forall (numeric_key "churn_rate_percent") (churn_summary results)
  /\ top_revenue i = hd_error (revenue_analysis_top10 results)
  /\ exists at_risk revenue,
       item (executive_summary results) "at_risk_revenue" = inr at_risk
       /\ item (executive_summary results) "total_monthly_revenue" = inr revenue
       /\ is_zero revenue = false
       /\ forall x y, finite at_risk = Some x -> finite revenue = Some y ->
                      at_risk_pct i = VFloat (x / y * inject_Z 100).
Proof.
  intros H. unfold generate_insights in H.
  step_in H E1. step_in H E2. step_in H E3. step_in H E4.
  destruct (item (executive_summary results) "total_monthly_revenue") as [e|revenue] eqn:Erev;
    cbn [ebind] in H; [discriminate H|].
  step_in H E6.
  destruct (item (executive_summary results) "at_risk_revenue") as [e|at_risk] eqn:Erisk;
    cbn [ebind] in H; [discriminate H|].
  step_in H E8.
  destruct (log_segments (churn_summary results)) as [e|u9] eqn:Elog;
    cbn [ebind] in H; [discriminate H|].
  destruct (true_divide at_risk revenue) as [e|ratio] eqn:Ediv;
    cbn [ebind] in H; [discriminate H|].
  destruct (times ratio 100) as [e|pct] eqn:Epct; cbn [ebind] in H; [discriminate H|].
  step_in H E12.
  destruct (times at_risk 12) as [e|annual] eqn:Eann; cbn [ebind] in H; [discriminate H|].
  step_in H E14.
  destruct (max_by "churn_rate_percent" (churn_summary results)) as [e|best] eqn:Emax;
    cbn [ebind] in H; [discriminate H|].
  step_in H E16.
  destruct (item best "churn_rate_percent") as [e|rate] eqn:Erate;
    cbn [ebind] in H; [discriminate H|].
  step_in H E18.
  pose proof (@log_segments_keys _ _ Elog) as Hkeys.
  assert (Hne : churn_summary results <> []).
  { intros E. rewrite E in Emax. discriminate Emax. }
  destruct (@max_by_spec "churn_rate_percent" _ Hne Hkeys) as (m & k & Hm & Hin & Hk & Hall).
  rewrite Emax in Hm. injection Hm as <-.
  assert (Hi : highest_churn_segment i = best
               /\ top_revenue i = hd_error (revenue_analysis_top10 results)
               /\ at_risk_pct i = pct).
  { destruct (revenue_analysis_top10 results) as [|top rest].
    - injection H as <-. repeat split.
    - step_in H E19. step_in H E20. step_in H E21. injection H as <-. repeat split. }
  destruct Hi as (Hbest & Htop & Hpct). rewrite Hbest, Hpct.
  split; [exact Hin|]. split; [exists k; split; assumption|].
  split; [exact Hkeys|]. split; [exact Htop|].
  exists at_risk, revenue. split; [reflexivity|]. split; [reflexivity|].
  apply (@format_number_inv _ _ _) in E6. apply (@format_number_inv _ _ _) in E8.
  unfold is_zero. split.
  - destruct at_risk, revenue; try discriminate; cbn in Ediv |- *;
      try reflexivity; destruct (Qeq_bool _ 0); try reflexivity; discriminate Ediv.
  - intros x y Hx Hy.
    destruct at_risk, revenue; try discriminate; cbn in Hx, Hy, Ediv;
      injection Hx as <-; injection Hy as <-;
      destruct (Qeq_bool _ 0); try discriminate Ediv;
      injection Ediv as <-; cbn in Epct; injection Epct as <-; reflexivity.
Qed.

Lemma insights_name_the_top_segment_witness :
  exists i,
    generate_insights tied_results = inr i
    /\ highest_churn_segment i = segment_row "Growing" 1 50
    /\ In (highest_churn_segment i) (churn_summary tied_results).
Proof.
  eexists. split; [reflexivity|]. split; [reflexivity|].
  exact (proj1 (@insights_name_the_top_segment tied_results _ eq_refl)).
Defined.

(** X23: the gold stage does not undo what it has built.  When the script
    has been executed and the results read from the gold tables have no
    segment, or no revenue, [main] of modeling.py fails in
    [generate_insights]: the results file is not written, whatever
    [save_results] would do, and the store keeps every table that the
    script built. *)
Theorem gold_stage_fails_after_building
        (execute : string -> database -> result database) (sql_script : string)
        (validate_gold_models : database -> result Results)
        (db db' : database) (results : Results) (revenue : value) :
  build_gold_models execute sql_script db = (inr tt, db') ->
  validate_gold_models db' = inr results ->
  churn_summary results = []
  \/ (item (executive_summary results) "total_monthly_revenue" = inr revenue
      /\ is_zero revenue = true) ->
  exists e,
    generate_insights results = inl e
    /\ forall save_results,
         modeling_main execute sql_script validate_gold_models save_results db
         = (inl e, db').
Proof.
  intros Hb Hv Hr. destruct (@generate_insights_raises results revenue Hr) as (e & He).
  exists e. split; [exact He|]. intros save_results.
  unfold modeling_main. now rewrite Hb, Hv, He.
Qed.

Lemma gold_stage_fails_after_building_witness :
  exists e,
    forall save_results,
      modeling_main records_statement "CREATE TABLE gold.churn_summary AS SELECT 1"
        (fun _ => inr empty_results) save_results []
      = (inl e, [("CREATE TABLE gold.churn_summary AS SELECT 1", [])]).
Proof.
  destruct (@gold_stage_fails_after_building records_statement
              "CREATE TABLE gold.churn_summary AS SELECT 1" (fun _ => inr empty_results)
              [] [("CREATE TABLE gold.churn_summary AS SELECT 1", [])] empty_results VNan
              eq_refl eq_refl (or_introl eq_refl)) as (e & _ & H).
  exists e. exact H.
Defined.

(* ===================================================================== *)
(** * [validate_bronze_data] and [run_pipeline] *)
(* ===================================================================== *)

Lemma existsb_nan_count (c : column) :
  existsb is_nan c = (0 <? sum_bool (map is_nan c))%Z.
Proof.
  unfold sum_bool. induction c as [|x c IH]; [reflexivity|].
  cbn [existsb map count_occ]. destruct (is_nan x); cbn [orb].
  - destruct (bool_dec true true); [|contradiction]. symmetry. apply Z.ltb_lt. lia.
  - destruct (bool_dec false true); [discriminate | exact IH].
Qed.

Lemma count_null_nonneg (df : DataFrame) : 0 <= count_null df.
Proof.
  unfold count_null. induction df as [|[n c] df IH]; cbn [fold_right]; [lia|].
  pose proof (sum_bool_nonneg (map is_nan c)). lia.
Qed.

Lemma any_null_count (df : DataFrame) :
  existsb snd (Ingestion.any_null df) = (0 <? count_null df)%Z.
Proof.
  induction df as [|[n c] df IH]; [reflexivity|].
  change (existsb snd (Ingestion.any_null ((n, c) :: df)))
    with (existsb is_nan c || existsb snd (Ingestion.any_null df)).
  change (count_null ((n, c) :: df)) with (sum_bool (map is_nan c) + count_null df).
  rewrite IH, existsb_nan_count.
  pose proof (sum_bool_nonneg (map is_nan c)).
  pose proof (count_null_nonneg df).
  destruct (0 <? sum_bool (map is_nan c))%Z eqn:A;
    destruct (0 <? count_null df)%Z eqn:B; cbn [orb]; symmetry;
    rewrite ?Z.ltb_lt, ?Z.ltb_ge in *; lia.
Qed.

Lemma filter_nonempty {A} (p : A -> bool) (l : list A) :
  existsb p l = true <-> filter p l <> [].
Proof.
  induction l as [|a l IH]; cbn [existsb filter].
  - split; [discriminate | congruence].
  - destruct (p a); cbn [orb]; [split; [discriminate | reflexivity] | exact IH].
Qed.

(** X20: the null report of [validate_bronze_data] is consistent.  The flag
    has_nulls is set exactly when null_columns lists a column, and exactly
    when the frame holds a missing cell, as the transformation counts them;
    the listed columns are the columns of the file that hold a missing
    cell, in file order.  The column count is the length of the column
    list. *)
Theorem bronze_null_report_is_consistent
        (read_csv : string -> result DataFrame) (memory_usage_mb : DataFrame -> Q)
        (now : Z) (write_json : Ingestion.BronzeValidation -> result unit)
        (file_path : string) (df : DataFrame) (v : Ingestion.BronzeValidation) :
  read_csv file_path = inr df ->
  Ingestion.validate_bronze_data read_csv memory_usage_mb now write_json file_path = inr v ->
  (Ingestion.has_nulls v = true <-> Ingestion.null_columns v <> [])
  /\ Ingestion.has_nulls v = (0 <? count_null df)%Z
  /\ (forall name, In name (Ingestion.null_columns v) ->
        exists c, In (name, c) df /\ In NaN c)
  /\ Ingestion.null_columns v
     = map fst (filter (fun p => existsb is_nan (snd p)) df)
  /\ Ingestion.column_count v = Z.of_nat (List.length (Ingestion.columns v))
  /\ Ingestion.columns v = map fst df
  /\ Ingestion.row_count v = len df.
Proof.
  intros Hr H. unfold Ingestion.validate_bronze_data in H. rewrite Hr in H.
  cbn [ebind] in H. destruct (write_json _) as [e|u]; cbn [ebind] in H; [discriminate H|].
  injection H as <-.
  cbn [Ingestion.has_nulls Ingestion.null_columns Ingestion.column_count
       Ingestion.columns Ingestion.row_count].
  assert (Hcols : forall name, In name (map fst (filter snd (Ingestion.any_null df))) ->
                               exists c, In (name, c) df /\ In NaN c).
  { intros name Hin. apply in_map_iff in Hin. destruct Hin as ([n b] & Hn & Hin).
    cbn in Hn. subst n. apply filter_In in Hin. destruct Hin as [Hin Hb]. cbn in Hb. subst b.
    unfold Ingestion.any_null in Hin. apply in_map_iff in Hin.
    destruct Hin as ([n c] & Heq & Hin). injection Heq as -> Hex.
    apply existsb_exists in Hex. destruct Hex as (x & Hx & Hnan).
    exists c. split; [exact Hin|]. destruct x; try discriminate Hnan. exact Hx. }
  split.
  { rewrite filter_nonempty. split; intros N E; apply N.
    - now apply map_eq_nil in E.
    - now rewrite E. }
  split; [apply any_null_count|]. split; [exact Hcols|]. split.
  { unfold Ingestion.any_null. clear. induction df as [|[n c] df IH]; [reflexivity|].
    cbn [map filter snd]. destruct (existsb is_nan c); cbn [map fst]; now rewrite IH. }
  split; [reflexivity|]. split; reflexivity.
Qed.

Lemma bronze_null_report_is_consistent_witness :
  exists v,
    Ingestion.validate_bronze_data (fun _ => inr missing_cell) (fun _ => 0%Q) 1762266000
      (fun _ => inr tt) "telco_customer_churn.csv" = inr v
    /\ Ingestion.has_nulls v = true
    /\ Ingestion.null_columns v = ["Partner"]
    /\ Ingestion.has_nulls v = (0 <? count_null missing_cell)%Z.
Proof.
  eexists. split; [reflexivity|]. split; [reflexivity|]. split; [reflexivity|].
  exact (proj1 (proj2 (@bronze_null_report_is_consistent
                         (fun _ => inr missing_cell) (fun _ => 0%Q) 1762266000
                         (fun _ => inr tt) "telco_customer_churn.csv" missing_cell _
                         eq_refl eq_refl))).
Defined.

Lemma world_eta (w : Orchestrator.World) :
  {| Orchestrator.bronze := Orchestrator.bronze w;
     Orchestrator.store := Orchestrator.store w |} = w.
Proof. destruct w; reflexivity. Qed.

(** X21: the pipeline stops at an input that the transformation rejects.
    When the ingestion has succeeded and the bronze file is missing, or
    lacks a column that [clean_and_transform] reads, or has a gender column
    without text, [run_pipeline] returns False: the world is the one the
    ingestion left, so the store has not been written, and neither the
    staging script nor the gold stage has been run.  The script then exits
    with status 1. *)
Theorem pipeline_stops_at_rejected_input
        (ingestion_main : Orchestrator.World -> result unit * Orchestrator.World)
        (silver_staging_sql : database -> result database) (now : Z)
        (gold : database -> result unit * database)
        (w w1 : Orchestrator.World) :
  ingestion_main w = (inr tt, w1) ->
  match Orchestrator.bronze w1 with
  | Some df => transformable df = false
  | None => True
  end ->
  Orchestrator.run_pipeline ingestion_main silver_staging_sql now gold w = (false, w1)
  /\ Orchestrator.exit_status
       (fst (Orchestrator.run_pipeline ingestion_main silver_staging_sql now gold w)) = 1.
Proof.
  intros Hi Hb.
  assert (Hrun : Orchestrator.run_pipeline ingestion_main silver_staging_sql now gold w
                 = (false, w1)).
  { unfold Orchestrator.run_pipeline, Orchestrator.transformation_main. rewrite Hi.
    destruct (Orchestrator.bronze w1) as [df|] eqn:Eb.
    - destruct (@clean_and_transform_rejects [df] 0%nat df eq_refl Hb) as (e & d & Hc & _).
      unfold Transformation.main. rewrite Hc. rewrite <- Eb. now rewrite world_eta.
    - cbn. rewrite <- Eb. now rewrite world_eta. }
  split; [exact Hrun|]. now rewrite Hrun.
Qed.

Lemma pipeline_stops_at_rejected_input_witness :
  Orchestrator.run_pipeline (ingests no_total) idle_script 1762266000 idle_gold empty_world
  = (false, {| Orchestrator.bronze := Some no_total; Orchestrator.store := [] |}).
Proof.
  exact (proj1 (@pipeline_stops_at_rejected_input (ingests no_total) idle_script 1762266000
                  idle_gold empty_world
                  {| Orchestrator.bronze := Some no_total; Orchestrator.store := [] |}
                  eq_refl eq_refl)).
Defined.

(** X22: what a successful pipeline run has done.  When [run_pipeline]
    returns True, the ingestion succeeded and left a bronze frame that the
    transformation accepts, the silver stage returned and left a staging
    table with at least one row, and the gold stage was run on the store
    that the silver stage left and succeeded; the bronze file is the one the
    ingestion left.  Conversely, when the three stages succeed in this
    order the run returns True, and the exit status is 0 exactly then. *)
Theorem pipeline_success_means_all_stages
        (ingestion_main : Orchestrator.World -> result unit * Orchestrator.World)
        (silver_staging_sql : database -> result database) (now : Z)
        (gold : database -> result unit * database)
        (w w' : Orchestrator.World) :
  Orchestrator.run_pipeline ingestion_main silver_staging_sql now gold w = (true, w')
  <-> exists w1 df v db2 u1 u3,
        ingestion_main w = (inr u1, w1)
        /\ Orchestrator.bronze w1 = Some df
        /\ transformable df = true
        /\ Transformation.main (Some df) silver_staging_sql now (Orchestrator.store w1)
           = (inr v, db2)
        /\ (exists t, get_table "silver.customers_staging" db2 = Some t /\ len t <> 0)
        /\ gold db2 = (inr u3, Orchestrator.store w')
        /\ Orchestrator.bronze w' = Orchestrator.bronze w1.
Proof.
  unfold Orchestrator.run_pipeline, Orchestrator.transformation_main,
    Orchestrator.modeling_main.
  split.
  - destruct (ingestion_main w) as [[e|u1] w1] eqn:Hi; [discriminate|].
    destruct (Transformation.main (Orchestrator.bronze w1) silver_staging_sql now
                (Orchestrator.store w1)) as [[e|v] db2] eqn:Hm; [discriminate|].
    cbn [Orchestrator.store Orchestrator.bronze].
    destruct (gold db2) as [[e|u3] db3] eqn:Hg; [discriminate|].
    intros [= <-]. cbn [Orchestrator.store Orchestrator.bronze].
    destruct (Orchestrator.bronze w1) as [df|] eqn:Eb; [|discriminate Hm].
    destruct (@main_returns df silver_staging_sql now _ db2 v Hm)
      as (r & rep & h & out & db1 & t & Hc & _ & _ & _ & Hdb & Hv).
    destruct (@validate_silver_data_inv db2 v Hv)
      as (t' & _ & _ & _ & Ht & _ & _ & _ & Hn & _).
    exists w1, df, v, db2, u1, u3.
    split; [reflexivity|]. split; [exact Eb|].
    split; [exact (@clean_and_transform_accepts [df] h 0%nat df (r, rep) eq_refl Hc)|].
    split; [exact Hm|]. split; [eauto|]. split; [exact Hg | symmetry; exact Eb].
  - intros (w1 & df & v & db2 & u1 & u3 & Hi & Hb & _ & Hm & _ & Hg & Hw).
    rewrite Hi, Hb, Hm. cbn [Orchestrator.store Orchestrator.bronze]. rewrite Hg.
    f_equal. rewrite <- Hb, <- Hw. apply world_eta.
Qed.

Lemma pipeline_success_means_all_stages_witness :
  exists w',
    Orchestrator.run_pipeline (ingests two_customers) idle_script 1762266000 idle_gold
      empty_world = (true, w')
    /\ Orchestrator.store w' = snd first_run
    /\ Orchestrator.exit_status true = 0.
Proof.
  exists {| Orchestrator.bronze := Some two_customers; Orchestrator.store := snd first_run |}.
  split; [|split; reflexivity].
  apply (proj2 (@pipeline_success_means_all_stages (ingests two_customers) idle_script
                  1762266000 idle_gold empty_world _)).
  exists {| Orchestrator.bronze := Some two_customers; Orchestrator.store := [] |},
    two_customers, (results_of first_run), (snd first_run), tt, tt.
  split; [reflexivity|]. split; [reflexivity|]. split; [reflexivity|].
  split; [vm_compute; reflexivity|]. split.
  - exists (staging_of (snd first_run)). split; [reflexivity | vm_compute; discriminate].
  - split; reflexivity.
Defined.
